(** * A shallow embedding of the chat backend (app.py, database.py)

    The Flask application keeps three JSON documents (webhooks, users,
    chats), a per-browser session dictionary, and reads message history
    from an external PostgreSQL table.  The embedding below follows the
    Python source function by function:

    - [Py]        the handful of Python primitives the code relies on
                  (truthiness, [str.strip], [str.lower], [dict.get]);
    - [Files]     the data files and [ensure_data_file], [read_*], [write_*];
    - [Database]  database.py: [get_chat_history];
    - [App]       app.py: registries, [login_required] and the route handlers.

    Python strings are modelled by [string], one [ascii] per code point
    (code points below 256).  Values produced by [uuid.uuid4()] and
    [datetime.now()] are inputs of the functions that draw them. *)

From Stdlib Require Import String Ascii List Bool Arith ZArith Lia DecimalString.
From Stdlib Require Import Sorted Permutation.
From stdpp Require Import gmap strings list fin_maps.
Import ListNotations.

Local Open Scope string_scope.
Set Warnings "-register-all".

(* ===================================================================== *)
(** ** Python primitives *)
(* ===================================================================== *)

Module Py.

(** Values that [json.loads] / [request.get_json] / psycopg2 hand to the
    program.  A float is kept as its lexeme: the code never computes on
    numbers. *)
Inductive pyval : Type :=
| PNone
| PBool (b : bool)
| PInt (z : Z)
| PFloat (lexeme : string)
| PStr (s : string)
| PList (items : list pyval)
| PDict (items : list (string * pyval)).

(** [d.get(key)] on the entries of a dict. *)
Fixpoint assoc (key : string) (items : list (string * pyval)) : option pyval :=
  match items with
  | [] => None
  | (k, v) :: rest => if decide (k = key) then Some v else assoc key rest
  end.

(** [d.get(key, default)]. *)
Definition get_default (key : string) (default : pyval)
           (items : list (string * pyval)) : pyval :=
  match assoc key items with
  | Some v => v
  | None => default
  end.

(** [v == s] for a string literal [s]: only a [str] compares equal. *)
Definition eq_str (v : pyval) (s : string) : bool :=
  match v with
  | PStr t => bool_decide (t = s)
  | _ => false
  end.

(** Truthiness of an optional string ([None] and [''] are falsy). *)
Definition truthy (o : option string) : bool :=
  match o with
  | Some s => negb (bool_decide (s = ""))
  | None => false
  end.

(** [if o:] binding the value in the true branch. *)
Definition nonempty (o : option string) : option string :=
  if truthy o then o else None.

(** [c.isspace()] on code points below 256. *)
Definition isspace (c : ascii) : bool :=
  let n := nat_of_ascii c in
  (((9 <=? n) && (n <=? 13)) || ((28 <=? n) && (n <=? 32))
   || (n =? 133) || (n =? 160))%nat.

Fixpoint lstrip (s : string) : string :=
  match s with
  | EmptyString => EmptyString
  | String c rest => if isspace c then lstrip rest else s
  end.

Fixpoint rstrip (s : string) : string :=
  match s with
  | EmptyString => EmptyString
  | String c rest =>
      match rstrip rest with
      | EmptyString => if isspace c then EmptyString else String c EmptyString
      | kept => String c kept
      end
  end.

(** [s.strip()]. *)
Definition strip (s : string) : string := rstrip (lstrip s).

(** Upper-case letters below 256: A-Z and the Latin-1 capitals. *)
Definition isupper (c : ascii) : bool :=
  let n := nat_of_ascii c in
  (((65 <=? n) && (n <=? 90))
   || ((192 <=? n) && (n <=? 222) && negb (n =? 215)))%nat.

Definition lower_char (c : ascii) : ascii :=
  if isupper c then ascii_of_nat (nat_of_ascii c + 32) else c.

(** [s.lower()]. *)
Fixpoint lower (s : string) : string :=
  match s with
  | EmptyString => EmptyString
  | String c rest => String (lower_char c) (lower rest)
  end.

(** [str(n)] for a non-negative integer. *)
Definition str_of_nat (n : nat) : string :=
  NilEmpty.string_of_uint (Nat.to_uint n).

(** Outcome of a block that may raise. *)
Inductive exn : Type :=
| Psycopg2Error (msg : string)
| OtherException (msg : string).

Definition exn_str (e : exn) : string :=
  match e with Psycopg2Error m | OtherException m => m end.

Inductive outcome (A : Type) : Type :=
| Returns (a : A)
| Raises (e : exn).
Arguments Returns {A} a.
Arguments Raises {A} e.

(** [try: body  except Exception as e: handler(e)]. *)
Definition try_except {A} (body : outcome A) (handler : exn -> outcome A)
  : outcome A :=
  match body with
  | Returns a => Returns a
  | Raises e => handler e
  end.

Definition and_then {A B} (m : outcome A) (k : A -> outcome B) : outcome B :=
  match m with
  | Returns a => k a
  | Raises e => Raises e
  end.

End Py.

(* ===================================================================== *)
(** ** database.py *)
(* ===================================================================== *)

Module Database.
Import Py.

(** A record of the table [n8n_chat_histories].  The [message] column
    arrives as whatever psycopg2 decodes it to: a [str] for a text
    column, an already decoded value for a json column, [None] for NULL. *)
Record row : Type := {
  row_id : Z;
  row_session_id : string;
  row_message : pyval
}.

(** The external store as one request sees it. *)
Inductive db : Type :=
| ConnectionFails (msg : string)
| QueryFails (msg : string)
| Table (rows : list row).

(** [psycopg2.connect] on [DB_CONFIG], re-raising [psycopg2.Error]. *)
Definition get_db_connection (d : db) : outcome db :=
  match d with
  | ConnectionFails msg => Raises (Psycopg2Error msg)
  | _ => Returns d
  end.

(** [ORDER BY id ASC], as a stable insertion sort. *)
Fixpoint insert_by_id (r : row) (sorted : list row) : list row :=
  match sorted with
  | [] => [r]
  | r' :: rest =>
      if (row_id r' <? row_id r)%Z then r' :: insert_by_id r rest
      else r :: sorted
  end.

Fixpoint order_by_id (rows : list row) : list row :=
  match rows with
  | [] => []
  | r :: rest => insert_by_id r (order_by_id rest)
  end.

(** [cursor.execute(query, (session_id,)); cursor.fetchall()] with
    [SELECT id, session_id, message FROM n8n_chat_histories
     WHERE session_id = %s ORDER BY id ASC]. *)
Definition execute_fetchall (conn : db) (session_id : string) : outcome (list row) :=
  match conn with
  | ConnectionFails msg => Raises (Psycopg2Error msg)
  | QueryFails msg => Raises (Psycopg2Error msg)
  | Table rows =>
      Returns (order_by_id
                 (List.filter (fun r => bool_decide (row_session_id r = session_id)) rows))
  end.

Section WithJson.

(** [json.loads]; [None] stands for [json.JSONDecodeError]. *)
Variable json_loads : string -> option pyval.

(** The body of the [for row in rows] loop: a [str] message is parsed,
    and kept as the original string when parsing fails. *)
Definition parse_message (r : row) : row :=
  match row_message r with
  | PStr text =>
      match json_loads text with
      | Some v => {| row_id := row_id r; row_session_id := row_session_id r;
                     row_message := v |}
      | None => r
      end
  | _ => r
  end.

Definition get_chat_history (d : db) (session_id : string) : outcome (list row) :=
  try_except
    (and_then (get_db_connection d) (fun conn =>
     and_then (execute_fetchall conn session_id) (fun rows =>
     Returns (List.map parse_message rows))))
    (fun e =>
       match e with
       | Psycopg2Error _ => Returns []
       | OtherException _ => Returns []
       end).

End WithJson.

End Database.

(* ===================================================================== *)
(** ** app.py: data files and registries *)
(* ===================================================================== *)

Module App.
Import Py.

(** *** Stored records *)

Record webhook : Type := {
  w_id : string;
  w_name : string;
  w_url : string
}.

Record user : Type := {
  u_id : string;
  u_username : string;
  u_created_at : string;
  u_last_login : string
}.

(** [user_id] is whatever [session.get('user_id')] was when the chat was
    created, hence optional. *)
Record chat : Type := {
  c_id : string;
  c_user_id : option string;
  c_session_id : string;
  c_title : string;
  c_created_at : string;
  c_updated_at : string
}.

(** *** The data directory *)

(** A data file is absent, unreadable as JSON, or holds a document. *)
Inductive file (A : Type) : Type :=
| Missing
| Corrupt
| Doc (content : A).
Arguments Missing {A}.
Arguments Corrupt {A}.
Arguments Doc {A} content.

(** webhooks.json is either in the old single-webhook shape
    [{"active_webhook": url}] or in the shape [{"webhooks": [...]}]. *)
Inductive webhook_doc : Type :=
| Legacy (active_webhook : option string)
| Webhooks (webhooks : list webhook).

Record fs : Type := {
  webhook_file : file webhook_doc;
  users_file : file (list user);
  chats_file : file (list chat)
}.

(** What a request handler can read and change: the data files and the
    Flask session of the browser that sent the request. *)
Record world : Type := {
  files : fs;
  session : gmap string string
}.

(** *** Handlers as state transformers *)

Definition flask (A : Type) : Type := world -> A * world.

Definition ret {A} (a : A) : flask A := fun w => (a, w).

Definition bind {A B} (m : flask A) (k : A -> flask B) : flask B :=
  fun w => let r := m w in k (fst r) (snd r).

Notation "x <- m ;; k" := (bind m (fun x => k))
  (at level 100, m at next level, right associativity).
Notation "m ;; k" := (bind m (fun _ => k))
  (at level 100, right associativity).

Definition get_files : flask fs := fun w => (files w, w).
Definition put_files (f : fs) : flask unit :=
  fun w => (tt, {| files := f; session := session w |}).
Definition get_session : flask (gmap string string) := fun w => (session w, w).
Definition put_session (s : gmap string string) : flask unit :=
  fun w => (tt, {| files := files w; session := s |}).

(** [session[key] = value] and [session.pop(key, None)]. *)
Definition session_set (key value : string) : flask unit :=
  s <- get_session ;; put_session (<[key := value]> s).
Definition session_pop (key : string) : flask unit :=
  s <- get_session ;; put_session (delete key s).

Definition put_webhook_file (d : file webhook_doc) : flask unit :=
  f <- get_files ;;
  put_files {| webhook_file := d; users_file := users_file f;
               chats_file := chats_file f |}.
Definition put_users_file (d : file (list user)) : flask unit :=
  f <- get_files ;;
  put_files {| webhook_file := webhook_file f; users_file := d;
               chats_file := chats_file f |}.
Definition put_chats_file (d : file (list chat)) : flask unit :=
  f <- get_files ;;
  put_files {| webhook_file := webhook_file f; users_file := users_file f;
               chats_file := d |}.

(** *** Helper functions *)

(** Creates each missing file; creating chats.json also rewrites
    users.json (lines 34-38 of app.py). *)
Definition ensure_data_file : flask unit :=
  f <- get_files ;;
  (match webhook_file f with
   | Missing => put_webhook_file (Doc (Webhooks []))
   | _ => ret tt
   end) ;;
  f <- get_files ;;
  (match users_file f with
   | Missing => put_users_file (Doc [])
   | _ => ret tt
   end) ;;
  f <- get_files ;;
  (match chats_file f with
   | Missing => put_chats_file (Doc []) ;; put_users_file (Doc [])
   | _ => ret tt
   end).

(** [uuid] is the value [uuid.uuid4()] yields if the migration of the old
    format draws one. *)
Definition read_webhooks (uuid : string) : flask (list webhook) :=
  ensure_data_file ;;
  f <- get_files ;;
  match webhook_file f with
  | Doc (Legacy old_webhook) =>
      let webhooks :=
        match old_webhook with
        | Some url =>
            if truthy old_webhook
            then [{| w_id := uuid; w_name := "Default Webhook"; w_url := url |}]
            else []
        | None => []
        end in
      put_webhook_file (Doc (Webhooks webhooks)) ;;
      ret webhooks
  | Doc (Webhooks webhooks) => ret webhooks
  | Corrupt | Missing => ret []
  end.

Definition write_webhooks (webhooks : list webhook) : flask unit :=
  ensure_data_file ;;
  put_webhook_file (Doc (Webhooks webhooks)).

Definition get_webhook_by_id (uuid : string) (webhook_id : string)
  : flask (option webhook) :=
  webhooks <- read_webhooks uuid ;;
  ret (List.find (fun webhook => bool_decide (w_id webhook = webhook_id)) webhooks).

Definition read_users : flask (list user) :=
  ensure_data_file ;;
  f <- get_files ;;
  match users_file f with
  | Doc users => ret users
  | Corrupt | Missing => ret []
  end.

Definition write_users (users : list user) : flask unit :=
  ensure_data_file ;;
  put_users_file (Doc users).

Definition same_username (username : string) (u : user) : bool :=
  bool_decide (lower (u_username u) = lower username).

Definition get_user_by_username (username : string) : flask (option user) :=
  users <- read_users ;;
  ret (List.find (same_username username) users).

(** The [for user in users: ... break] loop of [add_user]. *)
Fixpoint update_last_login (username now : string) (users : list user)
  : list user :=
  match users with
  | [] => []
  | u :: rest =>
      if same_username username u
      then {| u_id := u_id u; u_username := u_username u;
              u_created_at := u_created_at u; u_last_login := now |} :: rest
      else u :: update_last_login username now rest
  end.

(** [uuid], [t_created] and [t_login] are the values of [uuid.uuid4()] and
    of the calls of [datetime.now().isoformat()], in evaluation order; an
    existing user only consumes [t_login]. *)
Definition add_user (username uuid t_created t_login : string)
  : flask (option user) :=
  users <- read_users ;;
  existing_user <- get_user_by_username username ;;
  let users :=
    match existing_user with
    | Some _ => update_last_login username t_login users
    | None =>
        let new_user := {| u_id := uuid; u_username := username;
                           u_created_at := t_created;
                           u_last_login := t_login |} in
        (users ++ [new_user])%list
    end in
  write_users users ;;
  get_user_by_username username.

Definition read_chats : flask (list chat) :=
  ensure_data_file ;;
  f <- get_files ;;
  match chats_file f with
  | Doc chats => ret chats
  | Corrupt | Missing => ret []
  end.

Definition write_chats (chats : list chat) : flask unit :=
  ensure_data_file ;;
  put_chats_file (Doc chats).

Definition get_user_chats (user_id : option string) : flask (list chat) :=
  chats <- read_chats ;;
  ret (List.filter (fun chat => bool_decide (c_user_id chat = user_id)) chats).

Definition get_chat_by_id (chat_id : string) : flask (option chat) :=
  chats <- read_chats ;;
  ret (List.find (fun chat => bool_decide (c_id chat = chat_id)) chats).

(** The values [create_new_chat] draws, in evaluation order. *)
Record draws : Type := {
  new_session_id : string;      (* uuid.uuid4() *)
  formatted_date : string;      (* now.strftime("%b %-d, %H:%M") *)
  new_id : string;              (* uuid.uuid4() *)
  now_created : string;         (* datetime.now().isoformat() *)
  now_updated : string          (* datetime.now().isoformat() *)
}.

Definition auto_title (user_chats_count : nat) (formatted_date : string) : string :=
  "Chat-" ++ str_of_nat (user_chats_count + 1) ++ " (" ++ formatted_date ++ ")".

Definition create_new_chat (user_id : option string) (title : option string)
           (d : draws) : flask chat :=
  chats <- read_chats ;;
  let session_id := new_session_id d in
  title <- match title with
           | Some t =>
               if truthy title then ret t
               else (user_chats <- get_user_chats user_id ;;
                     ret (auto_title (length user_chats) (formatted_date d)))
           | None =>
               user_chats <- get_user_chats user_id ;;
               ret (auto_title (length user_chats) (formatted_date d))
           end ;;
  let new_chat := {| c_id := new_id d; c_user_id := user_id;
                     c_session_id := session_id; c_title := title;
                     c_created_at := now_created d;
                     c_updated_at := now_updated d |} in
  write_chats (chats ++ [new_chat])%list ;;
  ret new_chat.

(** The [for chat in chats] loop of [update_chat]: the first chat with the
    id is changed in place; the result is that chat and the new list. *)
Fixpoint update_first (chat_id : string) (updates : gmap string string)
         (now : string) (chats : list chat) : option (chat * list chat) :=
  match chats with
  | [] => None
  | c :: rest =>
      if bool_decide (c_id c = chat_id)
      then
        let c' := {| c_id := c_id c; c_user_id := c_user_id c;
                     c_session_id := c_session_id c;
                     c_title := match updates !! "title" with
                                | Some t => t
                                | None => c_title c
                                end;
                     c_created_at := c_created_at c;
                     c_updated_at := now |} in
        Some (c', c' :: rest)
      else
        match update_first chat_id updates now rest with
        | Some (c', rest') => Some (c', c :: rest')
        | None => None
        end
  end.

Definition update_chat (chat_id : string) (updates : gmap string string)
           (now : string) : flask (option chat) :=
  chats <- read_chats ;;
  match update_first chat_id updates now chats with
  | Some (chat, chats') => write_chats chats' ;; ret (Some chat)
  | None => ret None
  end.

Definition delete_chat (chat_id : string) : flask bool :=
  chats <- read_chats ;;
  let initial_length := length chats in
  let chats := List.filter (fun c => negb (bool_decide (c_id c = chat_id))) chats in
  if (length chats <? initial_length)%nat
  then write_chats chats ;; ret true
  else ret false.

(** *** Responses *)

Record entry : Type := {
  role : string;
  content : pyval
}.

(** The values placed in a [jsonify] body. *)
Inductive jv : Type :=
| JNull
| JStr (s : string)
| JNum (n : nat)
| JChat (c : chat)
| JChats (l : list chat)
| JUsers (l : list user)
| JEntries (l : list entry)
| JVal (v : pyval).

Definition jopt (o : option string) : jv :=
  match o with
  | Some s => JStr s
  | None => JNull
  end.

(** What a view function hands back to Flask; [Unhandled] is an exception
    escaping the view. *)
Inductive response : Type :=
| Redirect (location : string)
| Render (template : string)
| Json (status : nat) (body : list (string * jv))
| Unhandled.

Definition url_for (endpoint : string) : string :=
  if bool_decide (endpoint = "login") then "/login"
  else if bool_decide (endpoint = "chat_interface") then "/chat"
  else if bool_decide (endpoint = "webhook_management") then "/webhooks"
  else "/".

(** [not data] for a decoded JSON body: [None] and [{}] are falsy. *)
Definition falsy_body (data : option (gmap string string)) : bool :=
  match data with
  | Some fields => bool_decide (fields = ∅)
  | None => true
  end.

(** *** Authentication decorator *)

Definition login_required (f : flask response) : flask response :=
  s <- get_session ;;
  match s !! "username" with
  | None => ret (Redirect (url_for "login"))
  | Some _ => f
  end.

(** *** Main routes *)

Definition index : flask response :=
  ret (Redirect (url_for "chat_interface")).

(** [sorted(user_chats, key=lambda x: x.get('updated_at', ''), reverse=True)]:
    a stable sort, so chats with equal keys keep their order. *)
Fixpoint insert_desc (c : chat) (sorted : list chat) : list chat :=
  match sorted with
  | [] => [c]
  | m :: rest =>
      if String.ltb (c_updated_at c) (c_updated_at m)
      then m :: insert_desc c rest
      else c :: sorted
  end.

Fixpoint sorted_desc (chats : list chat) : list chat :=
  match chats with
  | [] => []
  | c :: rest => insert_desc c (sorted_desc rest)
  end.

Inductive method : Type := GET | POST.

Definition login (m : method) (data : option (gmap string string))
           (uuid t_created t_login : string) (d : draws) : flask response :=
  match m with
  | GET =>
      s <- get_session ;;
      match s !! "username" with
      | Some _ => ret (Redirect (url_for "chat_interface"))
      | None => ret (Render "login.html")
      end
  | POST =>
      match (if falsy_body data then None else data) ≫= (.!! "username") with
      | None => ret (Json 400 [("error", JStr "Username is required.")])
      | Some raw =>
          let username := strip raw in
          if (String.length username <? 2)%nat
          then ret (Json 400 [("error",
                      JStr "Username must be at least 2 characters long.")])
          else
            user <- add_user username uuid t_created t_login ;;
            match user with
            | None => ret Unhandled
            | Some user =>
                session_set "username" username ;;
                session_set "user_id" (u_id user) ;;
                user_chats <- get_user_chats (Some (u_id user)) ;;
                (match sorted_desc user_chats with
                 | [] =>
                     default_chat <- create_new_chat (Some (u_id user)) None d ;;
                     session_set "chat_id" (c_id default_chat) ;;
                     session_set "session_id" (c_session_id default_chat)
                 | latest_chat :: _ =>
                     session_set "chat_id" (c_id latest_chat) ;;
                     session_set "session_id" (c_session_id latest_chat)
                 end) ;;
                ret (Json 200 [("message", JStr "Login successful.");
                               ("username", JStr username)])
            end
      end
  end.

Definition logout : flask response :=
  session_pop "username" ;;
  ret (Redirect (url_for "login")).

Definition chat_interface : flask response :=
  login_required (ret (Render "chatinterface.html")).

Definition webhook_management : flask response :=
  login_required (ret (Render "webhookmanagement.html")).

(** *** API routes *)

Definition no_user_in_session : response :=
  Json 401 [("error", JStr "User not found in session.")].

Definition get_users : flask response :=
  login_required (
    users <- read_users ;;
    ret (Json 200 [("users", JUsers users); ("total", JNum (length users))])).

Definition get_chats : flask response :=
  login_required (
    s <- get_session ;;
    let user_id := s !! "user_id" in
    if negb (truthy user_id) then ret no_user_in_session
    else
      chats <- get_user_chats user_id ;;
      ret (Json 200 [("chats", JChats chats); ("total", JNum (length chats))])).

Definition create_chat (data : option (gmap string string)) (d : draws)
  : flask response :=
  login_required (
    s <- get_session ;;
    let user_id := s !! "user_id" in
    if negb (truthy user_id) then ret no_user_in_session
    else
      let data := if falsy_body data then ∅ else default ∅ data in
      let title := data !! "title" in
      new_chat <- create_new_chat user_id title d ;;
      session_set "chat_id" (c_id new_chat) ;;
      session_set "session_id" (c_session_id new_chat) ;;
      ret (Json 201 [("message", JStr "Chat created successfully.");
                     ("chat", JChat new_chat)])).

Definition update_chat_endpoint (chat_id : string)
           (data : option (gmap string string)) (now : string)
  : flask response :=
  login_required (
    s <- get_session ;;
    let user_id := s !! "user_id" in
    if negb (truthy user_id) then ret no_user_in_session
    else
      chat <- get_chat_by_id chat_id ;;
      match chat with
      | None => ret (Json 404 [("error", JStr "Chat not found.")])
      | Some chat =>
          if negb (bool_decide (c_user_id chat = user_id))
          then ret (Json 403 [("error", JStr "Unauthorized.")])
          else
            let data := if falsy_body data then ∅ else default ∅ data in
            if bool_decide (data !! "action" = Some "switch")
            then
              session_set "chat_id" chat_id ;;
              session_set "session_id" (c_session_id chat) ;;
              ret (Json 200 [("message", JStr "Switched to chat successfully.");
                             ("chat", JChat chat)])
            else
              let updates : gmap string string :=
                match data !! "title" with
                | Some t => {["title" := t]}
                | None => ∅
                end in
              updated_chat <- update_chat chat_id updates now ;;
              match updated_chat with
              | Some updated_chat =>
                  ret (Json 200 [("message", JStr "Chat updated successfully.");
                                 ("chat", JChat updated_chat)])
              | None => ret (Json 500 [("error", JStr "Failed to update chat.")])
              end
      end).

Definition rename_chat_endpoint (chat_id : string)
           (data : option (gmap string string)) (now : string)
  : flask response :=
  login_required (
    s <- get_session ;;
    let user_id := s !! "user_id" in
    if negb (truthy user_id) then ret no_user_in_session
    else
      chat <- get_chat_by_id chat_id ;;
      match chat with
      | None => ret (Json 404 [("error", JStr "Chat not found.")])
      | Some chat =>
          if negb (bool_decide (c_user_id chat = user_id))
          then ret (Json 403 [("error", JStr "Unauthorized.")])
          else
            match (if falsy_body data then None else data) ≫= (.!! "title") with
            | None =>
                ret (Json 400 [("error", JStr "Missing 'title' in request body.")])
            | Some raw =>
                let new_title := strip raw in
                if bool_decide (new_title = "")
                then ret (Json 400 [("error", JStr "Title cannot be empty.")])
                else if (100 <? String.length new_title)%nat
                then ret (Json 400 [("error",
                            JStr "Title must be 100 characters or less.")])
                else
                  updated_chat <- update_chat chat_id {["title" := new_title]} now ;;
                  match updated_chat with
                  | Some updated_chat =>
                      ret (Json 200 [("message", JStr "Chat renamed successfully.");
                                     ("chat", JChat updated_chat)])
                  | None =>
                      ret (Json 500 [("error", JStr "Failed to rename chat.")])
                  end
            end
      end).

Definition delete_chat_endpoint (chat_id : string) : flask response :=
  login_required (
    s <- get_session ;;
    let user_id := s !! "user_id" in
    if negb (truthy user_id) then ret no_user_in_session
    else
      chat <- get_chat_by_id chat_id ;;
      match chat with
      | None => ret (Json 404 [("error", JStr "Chat not found.")])
      | Some chat =>
          if negb (bool_decide (c_user_id chat = user_id))
          then ret (Json 403 [("error", JStr "Unauthorized.")])
          else
            deleted <- delete_chat chat_id ;;
            if deleted
            then
              s <- get_session ;;
              (if bool_decide (s !! "chat_id" = Some chat_id)
               then session_pop "chat_id" ;; session_pop "session_id"
               else ret tt) ;;
              ret (Json 200 [("message", JStr "Chat deleted successfully.")])
            else ret (Json 500 [("error", JStr "Failed to delete chat.")])
      end).

(** Legacy [POST /api/webhook].  [uuid_read] is drawn by the migration in
    [read_webhooks] if it runs, [uuid_new] by the creation branch. *)
Definition update_webhook_legacy (data : option (gmap string string))
           (uuid_read uuid_new : string) : flask response :=
  match (if falsy_body data then None else data) ≫= (.!! "webhook_url") with
  | None =>
      ret (Json 400 [("error", JStr "Missing 'webhook_url' in request body.")])
  | Some new_url =>
      webhooks <- read_webhooks uuid_read ;;
      let webhooks :=
        match webhooks with
        | first :: _ =>
            <[0%nat := {| w_id := w_id first; w_name := w_name first;
                          w_url := new_url |}]> webhooks
        | [] =>
            [{| w_id := uuid_new; w_name := "Default Webhook"; w_url := new_url |}]
        end in
      write_webhooks webhooks ;;
      ret (Json 200 [("message", JStr "Webhook updated successfully.");
                     ("webhook_url", JStr new_url)])
  end.

(** *** History and relay *)

Section WithJson.

(** [json.loads], as in [Database]. *)
Variable json_loads : string -> option pyval.

(** One turn of the [for msg in raw_history] loop. *)
Definition format_step (formatted_history : list entry) (msg : Database.row)
  : list entry :=
  let message_data := Database.row_message msg in
  match message_data with
  | PDict items =>
      let msg_type := get_default "type" (PStr "") items in
      let msg_content := get_default "content" (PStr "") items in
      if eq_str msg_type "human"
      then (formatted_history ++ [{| role := "user"; content := msg_content |}])%list
      else if eq_str msg_type "ai"
      then (formatted_history ++ [{| role := "assistant"; content := msg_content |}])%list
      else formatted_history
  | _ => formatted_history
  end.

Definition format_history (raw_history : list Database.row) : list entry :=
  fold_left format_step raw_history [].

(** The [try: ... except Exception as e: ...] block of
    [get_chat_history_api]. *)
Definition load_history (chat_id : option string) (session_id : string)
           (d : Database.db) : response :=
  match
    try_except
      (and_then (Database.get_chat_history json_loads d session_id)
         (fun raw_history =>
            let formatted_history := format_history raw_history in
            Returns (Json 200 [("chat_id", jopt chat_id);
                               ("session_id", JStr session_id);
                               ("history", JEntries formatted_history);
                               ("total_messages",
                                 JNum (length formatted_history))])))
      (fun e =>
         Returns (Json 200 [("chat_id", jopt chat_id);
                            ("session_id", JStr session_id);
                            ("history", JEntries []);
                            ("total_messages", JNum 0);
                            ("error", JStr ("Could not load chat history: "
                                            ++ exn_str e))]))
  with
  | Returns r => r
  | Raises _ => Unhandled
  end.

(** [chat_id] is [request.args.get('chat_id')]. *)
Definition get_chat_history_api (chat_id : option string) (d : Database.db)
  : flask response :=
  login_required (
    s <- get_session ;;
    match nonempty chat_id with
    | Some cid =>
        let user_id := s !! "user_id" in
        chat <- get_chat_by_id cid ;;
        match chat with
        | None => ret (Json 404 [("error", JStr "Chat not found.")])
        | Some chat =>
            if negb (bool_decide (c_user_id chat = user_id))
            then ret (Json 403 [("error", JStr "Unauthorized.")])
            else ret (load_history chat_id (c_session_id chat) d)
        end
    | None =>
        match s !! "session_id" with
        | None =>
            ret (Json 200 [("history", JEntries []);
                           ("message", JStr "No active chat found.")])
        | Some session_id => ret (load_history (s !! "chat_id") session_id d)
        end
    end).

End WithJson.

(** What [requests.post(...)], [raise_for_status()] and [response.json()]
    come to. *)
Inductive upstream : Type :=
| Timeout
| RequestException (details : string)
| JSONDecodeError
| Answer (reply : option pyval).

Record payload : Type := {
  user_message : string;
  payload_session_id : string;
  payload_username : string
}.

Definition send_message (user_data : option (gmap string string))
           (uuid_read : string) (d : draws) (now : string)
           (requests_post : string -> payload -> upstream) : flask response :=
  login_required (
    match (if falsy_body user_data then None else user_data) ≫= (.!! "message") with
    | None =>
        ret (Json 400 [("error",
               JStr "Invalid request. 'message' field is required.")])
    | Some message =>
        let webhook_id := user_data ≫= (.!! "webhook_id") in
        target <- match nonempty webhook_id with
                  | Some webhook_id =>
                      webhook <- get_webhook_by_id uuid_read webhook_id ;;
                      match webhook with
                      | None =>
                          ret (inl (Json 404 [("error",
                                 JStr "Selected webhook not found. Please select a valid webhook.")]))
                      | Some webhook => ret (inr (w_url webhook))
                      end
                  | None =>
                      webhooks <- read_webhooks uuid_read ;;
                      match webhooks with
                      | [] =>
                          ret (inl (Json 400 [("error",
                                 JStr "No webhook is configured. Please set one in the Webhook Management page.")]))
                      | first :: _ => ret (inr (w_url first))
                      end
                  end ;;
        match target with
        | inl failure => ret failure
        | inr webhook_url =>
            s <- get_session ;;
            (match s !! "session_id", s !! "chat_id" with
             | Some _, Some _ => ret tt
             | _, _ =>
                 new_chat <- create_new_chat (s !! "user_id") None d ;;
                 session_set "chat_id" (c_id new_chat) ;;
                 session_set "session_id" (c_session_id new_chat)
             end) ;;
            s <- get_session ;;
            match s !! "session_id" with
            | None => ret Unhandled
            | Some session_id =>
                let chat_id := s !! "chat_id" in
                let username := default "Anonymous" (s !! "username") in
                (match nonempty chat_id with
                 | Some chat_id => update_chat chat_id ∅ now ;; ret tt
                 | None => ret tt
                 end) ;;
                let body := {| user_message := message;
                               payload_session_id := session_id;
                               payload_username := username |} in
                match requests_post webhook_url body with
                | Answer (Some reply) => ret (Json 200 [("reply", JVal reply)])
                | Answer None =>
                    ret (Json 500 [("error",
                           JStr "Webhook response is missing the 'reply' key.")])
                | Timeout =>
                    ret (Json 504 [("error",
                           JStr "The request to the webhook timed out.")])
                | RequestException details =>
                    ret (Json 500 [("error",
                           JStr ("Webhook call failed. Please check the URL and ensure the endpoint is running. Details: "
                                 ++ details))])
                | JSONDecodeError =>
                    ret (Json 500 [("error",
                           JStr "Failed to decode JSON response from the webhook.")])
                end
            end
        end
    end).

(** *** Routing *)

(** The requests of the routes modelled above, with the values each view
    draws from its environment. *)
Inductive request : Type :=
| GetIndex
| LoginRoute (m : method) (data : option (gmap string string))
             (uuid t_created t_login : string) (d : draws)
| GetLogout
| GetChatPage
| GetWebhooksPage
| GetApiUsers
| GetApiChats
| PostApiChats (data : option (gmap string string)) (d : draws)
| PutApiChat (chat_id : string) (data : option (gmap string string)) (now : string)
| PutApiChatRename (chat_id : string) (data : option (gmap string string))
                   (now : string)
| DeleteApiChat (chat_id : string)
| PostApiWebhook (data : option (gmap string string)) (uuid_read uuid_new : string)
| GetApiChatHistory (chat_id : option string) (d : Database.db)
| PostChatSend (user_data : option (gmap string string)) (uuid_read : string)
               (d : draws) (now : string)
               (requests_post : string -> payload -> upstream).

(** The [@app.route] table. *)
Definition dispatch (json_loads : string -> option pyval) (r : request)
  : flask response :=
  match r with
  | GetIndex => index
  | LoginRoute m data uuid t_created t_login d =>
      login m data uuid t_created t_login d
  | GetLogout => logout
  | GetChatPage => chat_interface
  | GetWebhooksPage => webhook_management
  | GetApiUsers => get_users
  | GetApiChats => get_chats
  | PostApiChats data d => create_chat data d
  | PutApiChat chat_id data now => update_chat_endpoint chat_id data now
  | PutApiChatRename chat_id data now => rename_chat_endpoint chat_id data now
  | DeleteApiChat chat_id => delete_chat_endpoint chat_id
  | PostApiWebhook data uuid_read uuid_new =>
      update_webhook_legacy data uuid_read uuid_new
  | GetApiChatHistory chat_id d => get_chat_history_api json_loads chat_id d
  | PostChatSend user_data uuid_read d now requests_post =>
      send_message user_data uuid_read d now requests_post
  end.

(** The routes carrying [@login_required]. *)
Definition gated (r : request) : bool :=
  match r with
  | GetChatPage | GetWebhooksPage | GetApiUsers | GetApiChats
  | PostApiChats _ _ | PutApiChat _ _ _ | PutApiChatRename _ _ _
  | DeleteApiChat _ | GetApiChatHistory _ _ | PostChatSend _ _ _ _ _ => true
  | _ => false
  end.

(** Gated routes that render a page rather than answer JSON. *)
Definition page_route (r : request) : bool :=
  match r with
  | GetChatPage | GetWebhooksPage => true
  | _ => false
  end.

(** Gated routes that check [session.get('user_id')] themselves. *)
Definition checks_user_id (r : request) : bool :=
  match r with
  | GetApiChats | PostApiChats _ _ | PutApiChat _ _ _
  | PutApiChatRename _ _ _ | DeleteApiChat _ => true
  | _ => false
  end.

End App.

(* ===================================================================== *)
(** ** app.py: the webhook routes *)
(* ===================================================================== *)

Module WebhookApi.
Import Py App.

(** A stored webhook as [jsonify] renders it. *)
Definition webhook_json (w : webhook) : pyval :=
  PDict [("id", PStr (w_id w)); ("name", PStr (w_name w)); ("url", PStr (w_url w))].

Definition get_webhooks (uuid_read : string) : flask response :=
  webhooks <- read_webhooks uuid_read ;;
  ret (Json 200 [("webhooks", JVal (PList (List.map webhook_json webhooks)))]).

Definition missing_name_or_url : response :=
  Json 400 [("error", JStr "Missing 'name' or 'url' in request body.")].

(** [uuid_read] is drawn by the migration in [read_webhooks] if it runs,
    [uuid_new] by the creation. *)
Definition create_webhook (data : option (gmap string string))
           (uuid_read uuid_new : string) : flask response :=
  match (if falsy_body data then None else data) with
  | None => ret missing_name_or_url
  | Some fields =>
      match fields !! "name", fields !! "url" with
      | Some name, Some url =>
          webhooks <- read_webhooks uuid_read ;;
          let new_webhook := {| w_id := uuid_new; w_name := name; w_url := url |} in
          write_webhooks (webhooks ++ [new_webhook])%list ;;
          ret (Json 201 [("message", JStr "Webhook created successfully.");
                         ("webhook", JVal (webhook_json new_webhook))])
      | _, _ => ret missing_name_or_url
      end
  end.

(** The [for webhook in webhooks: ... break] loop of [update_webhook]:
    the first webhook with the id takes the fields present in the body;
    the result is that webhook and the new list. *)
Fixpoint update_found (webhook_id : string) (data : gmap string string)
         (webhooks : list webhook) : option (webhook * list webhook) :=
  match webhooks with
  | [] => None
  | x :: rest =>
      if bool_decide (w_id x = webhook_id)
      then
        let x' := {| w_id := w_id x;
                     w_name := match data !! "name" with
                               | Some name => name
                               | None => w_name x
                               end;
                     w_url := match data !! "url" with
                              | Some url => url
                              | None => w_url x
                              end |} in
        Some (x', x' :: rest)
      else
        match update_found webhook_id data rest with
        | Some (x', rest') => Some (x', x :: rest')
        | None => None
        end
  end.

Definition update_webhook (webhook_id : string)
           (data : option (gmap string string)) (uuid_read : string)
  : flask response :=
  match (if falsy_body data then None else data) with
  | None => ret missing_name_or_url
  | Some fields =>
      match fields !! "name", fields !! "url" with
      | None, None => ret missing_name_or_url
      | _, _ =>
          webhooks <- read_webhooks uuid_read ;;
          match update_found webhook_id fields webhooks with
          | None => ret (Json 404 [("error", JStr "Webhook not found.")])
          | Some (webhook, webhooks) =>
              write_webhooks webhooks ;;
              ret (Json 200 [("message", JStr "Webhook updated successfully.");
                             ("webhook", JVal (webhook_json webhook))])
          end
      end
  end.

Definition delete_webhook (webhook_id : string) (uuid_read : string)
  : flask response :=
  webhooks <- read_webhooks uuid_read ;;
  let initial_length := length webhooks in
  let webhooks :=
    List.filter (fun w => negb (bool_decide (w_id w = webhook_id))) webhooks in
  if (length webhooks =? initial_length)%nat
  then ret (Json 404 [("error", JStr "Webhook not found.")])
  else
    write_webhooks webhooks ;;
    ret (Json 200 [("message", JStr "Webhook deleted successfully.")]).

(** Legacy [GET /api/webhook]. *)
Definition get_webhook (uuid_read : string) : flask response :=
  webhooks <- read_webhooks uuid_read ;;
  match webhooks with
  | first :: _ => ret (Json 200 [("webhook_url", JStr (w_url first))])
  | [] => ret (Json 404 [("webhook_url", JNull)])
  end.

(** Legacy [DELETE /api/webhook]. *)
Definition delete_webhook_legacy : flask response :=
  write_webhooks [] ;;
  ret (Json 200 [("message", JStr "Webhook deleted successfully.")]).

End WebhookApi.

(* ===================================================================== *)
(** ** Vocabulary of the statements *)
(* ===================================================================== *)

Import Py App WebhookApi.

(** The collections as the [read_*] functions report them. *)
Definition stored_chats (w : world) : list chat :=
  match chats_file (files w) with
  | Doc chats => chats
  | _ => []
  end.

Definition stored_users (w : world) : list user :=
  match users_file (files w) with
  | Doc users => users
  | _ => []
  end.

(** The world once [ensure_data_file] has run. *)
Definition ensured (w : world) : world := snd (ensure_data_file w).

(** HTTP status of a response. *)
Definition status_of (r : response) : nat :=
  match r with
  | Redirect _ => 302
  | Render _ => 200
  | Json status _ => status
  | Unhandled => 500
  end.

(** Keys of a JSON body. *)
Definition has_field (key : string) (r : response) : bool :=
  match r with
  | Json _ body => bool_decide (key ∈ body.*1)
  | _ => false
  end.

(** Replacing one collection or the session. *)
Definition with_chats (chats : list chat) (w : world) : world :=
  {| files := {| webhook_file := webhook_file (files w);
                 users_file := users_file (files w);
                 chats_file := Doc chats |};
     session := session w |}.

Definition with_users (users : list user) (w : world) : world :=
  {| files := {| webhook_file := webhook_file (files w);
                 users_file := Doc users;
                 chats_file := chats_file (files w) |};
     session := session w |}.

Definition with_webhooks (webhooks : list webhook) (w : world) : world :=
  {| files := {| webhook_file := Doc (Webhooks webhooks);
                 users_file := users_file (files w);
                 chats_file := chats_file (files w) |};
     session := session w |}.

Definition with_session (s : gmap string string) (w : world) : world :=
  {| files := files w; session := s |}.

(** A request was refused as forbidden and left chats.json and the
    session as they were in [w]. *)
Definition forbidden_unchanged (w : world) (res : response * world) : Prop :=
  fst res = Json 403 [("error", JStr "Unauthorized.")]
  /\ chats_file (files (snd res)) = chats_file (files w)
  /\ session (snd res) = session w.

(** History normalisation as the specification words it: a record whose
    message is an object of type "human" or "ai" yields one entry, with
    role "user" or "assistant"; every other record yields none. *)
Definition role_of_type (type : pyval) : option string :=
  match type with
  | PStr t =>
      if bool_decide (t = "human") then Some "user"
      else if bool_decide (t = "ai") then Some "assistant"
      else None
  | _ => None
  end.

Definition normalised_entry (r : Database.row) : option entry :=
  match Database.row_message r with
  | PDict items =>
      match assoc "type" items ≫= role_of_type with
      | Some r => Some {| role := r;
                          content := default (PStr "") (assoc "content" items) |}
      | None => None
      end
  | _ => None
  end.

Definition normalise_spec (raw : list Database.row) : list entry :=
  omap normalised_entry raw.

(** Records in ascending order of their ids. *)
Definition ascending (rows : list Database.row) : Prop :=
  StronglySorted (fun a b => (Database.row_id a <= Database.row_id b)%Z) rows.

(** A chat with a new title and modification time, otherwise as it was. *)
Definition retitled (title now : string) (c : chat) : chat :=
  {| c_id := c_id c; c_user_id := c_user_id c; c_session_id := c_session_id c;
     c_title := title; c_created_at := c_created_at c; c_updated_at := now |}.

(** The chat an id resolves to, as [get_chat_by_id] looks it up. *)
Definition chat_with_id (chat_id : string) (chats : list chat) : option chat :=
  List.find (fun chat => bool_decide (c_id chat = chat_id)) chats.

Fixpoint nchars (n : nat) (c : ascii) : string :=
  match n with
  | O => EmptyString
  | S n => String c (nchars n c)
  end.

(** The live chats of a user. *)
Definition user_chats (user_id : option string) (w : world) : list chat :=
  List.filter (fun chat => bool_decide (c_user_id chat = user_id)) (stored_chats w).

(** A sequence of chat operations of one user; [run_ops] performs them in
    order and collects the titles of the chats it creates. *)
Inductive chat_op : Type :=
| Create (d : draws)
| Delete (chat_id : string).

Fixpoint run_ops (user_id : option string) (ops : list chat_op)
  : flask (list string) :=
  match ops with
  | [] => ret []
  | Create d :: rest =>
      new_chat <- create_new_chat user_id None d ;;
      titles <- run_ops user_id rest ;;
      ret (c_title new_chat :: titles)
  | Delete chat_id :: rest =>
      delete_chat chat_id ;;
      run_ops user_id rest
  end.

(** The titles [Chat-(first+1)], [Chat-(first+2)], ... with the dates of
    the draws. *)
Fixpoint numbered_titles (first : nat) (ds : list draws) : list string :=
  match ds with
  | [] => []
  | d :: rest =>
      auto_title first (formatted_date d) :: numbered_titles (S first) rest
  end.

Definition draw (n date : string) : draws :=
  {| new_session_id := "s-" ++ n; formatted_date := date; new_id := "c-" ++ n;
     now_created := "2026-01-07T22:30:00"; now_updated := "2026-01-07T22:30:00" |}.

(** Two characters that are the same letter up to case, and two strings
    that differ only in the case of their letters. *)
Definition same_letter (a b : ascii) : Prop :=
  a = b
  \/ (isupper a = true /\ b = lower_char a)
  \/ (isupper b = true /\ a = lower_char b).

Fixpoint differ_only_in_case (s t : string) : Prop :=
  match s, t with
  | EmptyString, EmptyString => True
  | String a s', String b t' => same_letter a b /\ differ_only_in_case s' t'
  | _, _ => False
  end.

(** A user record after a later login. *)
Definition relogged (now : string) (u : user) : user :=
  {| u_id := u_id u; u_username := u_username u;
     u_created_at := u_created_at u; u_last_login := now |}.

(** The webhooks of a file in the current format. *)
Definition stored_webhooks (w : world) : list webhook :=
  match webhook_file (files w) with
  | Doc (Webhooks webhooks) => webhooks
  | _ => []
  end.

(** users.json holds Alice and Bob, chats.json does not exist. *)
Definition world_without_chats_file : world :=
  {| files := {| webhook_file := Doc (Webhooks []);
                 users_file := Doc [ {| u_id := "u-alice"; u_username := "Alice";
                                        u_created_at := "2026-01-07T22:30:00";
                                        u_last_login := "2026-01-07T22:30:00" |} ];
                 chats_file := Missing |};
     session := ∅ |}.

(** webhooks.json in the old single-webhook shape. *)
Definition legacy_world : world :=
  {| files := {| webhook_file := Doc (Legacy (Some "http://old"));
                 users_file := Doc []; chats_file := Doc [] |};
     session := ∅ |}.

Definition corrupt_chats_world : world :=
  {| files := {| webhook_file := Doc (Webhooks []); users_file := Doc [];
                 chats_file := Corrupt |};
     session := ∅ |}.

(** A chat after [update_chat]: the title of the updates if they hold
    one, the new modification time, and nothing else changed. *)
Definition with_updates (updates : gmap string string) (now : string)
           (c : chat) : chat :=
  retitled (default (c_title c) (updates !! "title")) now c.

(** The requests that write to chats.json or rebind the active chat. *)
Definition chat_mutation (r : request) : bool :=
  match r with
  | PostApiChats _ _ | PutApiChat _ _ _ | PutApiChatRename _ _ _
  | DeleteApiChat _ => true
  | _ => false
  end.

(** The world after a login bound the name and the user id, and after a
    chat was made the active one. *)
Definition logged_in (username user_id : string) (w : world) : world :=
  with_session
    (<["user_id" := user_id]> (<["username" := username]> (session w))) w.

Definition activated (c : chat) (w : world) : world :=
  with_session
    (<["session_id" := c_session_id c]> (<["chat_id" := c_id c]> (session w))) w.

(** A view that never answers 401. *)
Definition never_401 (view : flask response) : Prop :=
  forall w, status_of (fst (view w)) <> 401.




(** Concrete data for the examples. *)
Definition empty_files : fs :=
  {| webhook_file := Doc (Webhooks []); users_file := Doc [];
     chats_file := Doc [] |}.

Definition anonymous_world : world :=
  {| files := empty_files; session := ∅ |}.

Definition no_json : string -> option pyval := fun _ => None.

(** A stand-in for [json.loads] that decodes one text. *)
Definition toy_loads (text : string) : option pyval :=
  if bool_decide (text = "{type: ai, content: Hello!}")
  then Some (PDict [("type", PStr "ai"); ("content", PStr "Hello!")])
  else None.

Definition history_table : list Database.row :=
  [ {| Database.row_id := 3; Database.row_session_id := "s-alice";
       Database.row_message := PDict [("type", PStr "system"); ("content", PStr "be kind")] |};
    {| Database.row_id := 2; Database.row_session_id := "s-alice";
       Database.row_message := PStr "{type: ai, content: Hello!}" |};
    {| Database.row_id := 7; Database.row_session_id := "s-bob";
       Database.row_message := PDict [("type", PStr "human"); ("content", PStr "bob here")] |};
    {| Database.row_id := 1; Database.row_session_id := "s-alice";
       Database.row_message := PDict [("type", PStr "human"); ("content", PStr "Hi")] |};
    {| Database.row_id := 4; Database.row_session_id := "s-alice";
       Database.row_message := PStr "not json" |};
    {| Database.row_id := 5; Database.row_session_id := "s-alice";
       Database.row_message := PNone |} ].

Definition alice : user :=
  {| u_id := "u-alice"; u_username := "Alice";
     u_created_at := "2026-01-07T22:30:00"; u_last_login := "2026-01-07T22:30:00" |}.

Definition bob : user :=
  {| u_id := "u-bob"; u_username := "bob";
     u_created_at := "2026-01-07T22:31:00"; u_last_login := "2026-01-07T22:31:00" |}.

Definition chat_alice : chat :=
  {| c_id := "c-alice"; c_user_id := Some "u-alice"; c_session_id := "s-alice";
     c_title := "Chat-1 (Jan 7, 22:30)";
     c_created_at := "2026-01-07T22:30:00"; c_updated_at := "2026-01-07T22:30:00" |}.

Definition chat_bob : chat :=
  {| c_id := "c-bob"; c_user_id := Some "u-bob"; c_session_id := "s-bob";
     c_title := "Chat-1 (Jan 7, 22:31)";
     c_created_at := "2026-01-07T22:31:00"; c_updated_at := "2026-01-07T22:31:00" |}.

(** Alice is logged in with her chat active; Bob has a chat too. *)
Definition alice_session : gmap string string :=
  {["username" := "Alice"; "user_id" := "u-alice";
    "chat_id" := "c-alice"; "session_id" := "s-alice"]}.

Definition alice_world : world :=
  {| files := {| webhook_file := Doc (Webhooks []);
                 users_file := Doc [alice; bob];
                 chats_file := Doc [chat_alice; chat_bob] |};
     session := alice_session |}.

(** A response is a success, or the chats and the session are as before. *)
Definition success_or_unchanged (w : world) (res : response * world) : Prop :=
  status_of (fst res) < 300
  \/ (stored_chats (snd res) = stored_chats w /\ session (snd res) = session w).

(** [a] was not modified before [b]. *)
Definition not_older (a b : chat) : Prop :=
  String.ltb (c_updated_at a) (c_updated_at b) = false.

(** The id, owner, session id and creation time of a chat. *)
Definition chat_identity (c : chat) : string * option string * string * string :=
  (c_id c, c_user_id c, c_session_id c, c_created_at c).

(** What the view answers for each outcome of the call to the webhook. *)
Definition relay_response (outcome : upstream) : response :=
  match outcome with
  | Answer (Some reply) => Json 200 [("reply", JVal reply)]
  | Answer None =>
      Json 500 [("error", JStr "Webhook response is missing the 'reply' key.")]
  | Timeout => Json 504 [("error", JStr "The request to the webhook timed out.")]
  | RequestException details =>
      Json 500 [("error",
        JStr ("Webhook call failed. Please check the URL and ensure the endpoint is running. Details: "
              ++ details))]
  | JSONDecodeError =>
      Json 500 [("error", JStr "Failed to decode JSON response from the webhook.")]
  end.

(** Alice's world with one webhook configured. *)
Definition relay_world : world :=
  with_webhooks [{| w_id := "w-1"; w_name := "n8n"; w_url := "http://n8n/hook" |}]
    alice_world.

(** An endpoint that echoes the message back. *)
Definition echo_endpoint (url : string) (p : payload) : upstream :=
  Answer (Some (PStr (user_message p))).

(** The webhook an id resolves to, as [get_webhook_by_id] looks it up. *)
Definition webhook_with_id (webhook_id : string) (webhooks : list webhook)
  : option webhook :=
  List.find (fun webhook => bool_decide (w_id webhook = webhook_id)) webhooks.

(** A webhook after a partial update. *)
Definition patched (data : gmap string string) (x : webhook) : webhook :=
  {| w_id := w_id x;
     w_name := default (w_name x) (data !! "name");
     w_url := default (w_url x) (data !! "url") |}.

(* ===================================================================== *)
(** ** The record store *)
(* ===================================================================== *)

Ltac by_files w :=
  let wf := fresh "wf" in
  let uf := fresh "uf" in
  let cf := fresh "cf" in
  let s := fresh "s" in
  destruct w as [[wf uf cf] s]; destruct wf, uf, cf; reflexivity.

Lemma ensured_idem w : ensured (ensured w) = ensured w.
Proof. by_files w. Qed.

Lemma ensured_session w : session (ensured w) = session w.
Proof. by_files w. Qed.

Lemma stored_chats_ensured w : stored_chats (ensured w) = stored_chats w.
Proof. by_files w. Qed.

Lemma ensure_data_file_eq w : ensure_data_file w = (tt, ensured w).
Proof. by_files w. Qed.

Lemma read_chats_eq w : read_chats w = (stored_chats w, ensured w).
Proof. by_files w. Qed.

Lemma read_users_eq w : read_users w = (stored_users (ensured w), ensured w).
Proof. by_files w. Qed.

Lemma write_chats_eq chats w :
  write_chats chats w = (tt, with_chats chats (ensured w)).
Proof. by_files w. Qed.

Lemma write_users_eq users w :
  write_users users w = (tt, with_users users (ensured w)).
Proof. by_files w. Qed.

Lemma ensured_with_chats chats w :
  ensured (with_chats chats (ensured w)) = with_chats chats (ensured w).
Proof. by_files w. Qed.

Lemma ensured_with_users users w :
  ensured (with_users users (ensured w)) = with_users users (ensured w).
Proof. by_files w. Qed.

Lemma chats_file_ensured w chats :
  chats_file (files w) = Doc chats -> chats_file (files (ensured w)) = Doc chats.
Proof.
  destruct w as [[wf uf cf] s]; simpl; intros ->; destruct wf, uf; reflexivity.
Qed.

Lemma get_chat_by_id_eq chat_id w :
  get_chat_by_id chat_id w =
  (List.find (fun chat => bool_decide (c_id chat = chat_id)) (stored_chats w),
   ensured w).
Proof. unfold get_chat_by_id, bind. rewrite read_chats_eq. reflexivity. Qed.

Lemma get_user_chats_eq user_id w :
  get_user_chats user_id w =
  (List.filter (fun chat => bool_decide (c_user_id chat = user_id)) (stored_chats w),
   ensured w).
Proof. unfold get_user_chats, bind. rewrite read_chats_eq. reflexivity. Qed.

Lemma get_user_by_username_eq username w :
  get_user_by_username username w =
  (List.find (same_username username) (stored_users (ensured w)), ensured w).
Proof. unfold get_user_by_username, bind. rewrite read_users_eq. reflexivity. Qed.

Lemma truthy_Some s : s <> "" -> truthy (Some s) = true.
Proof. intros H. unfold truthy. rewrite bool_decide_eq_false_2; auto. Qed.

(** A chat that [get_chat_by_id] finds lives in a readable chats.json. *)
Lemma found_chat_file chat_id w c :
  fst (get_chat_by_id chat_id w) = Some c ->
  chats_file (files w) = Doc (stored_chats w).
Proof.
  rewrite get_chat_by_id_eq. unfold stored_chats. simpl.
  destruct (chats_file (files w)); simpl; [discriminate | discriminate | reflexivity].
Qed.

(* ===================================================================== *)
(** ** C1: the authentication gate *)
(* ===================================================================== *)

Ltac run_gate :=
  unfold login_required, bind, get_session; cbn [fst snd].

(** Any view behind [login_required] answers a session without a username
    with the redirect, and does not touch the world. *)
Lemma login_required_anonymous (f : flask response) w :
  session w !! "username" = None ->
  login_required f w = (Redirect "/login", w).
Proof. intros H. run_gate. rewrite H. reflexivity. Qed.

Lemma login_required_authenticated (f : flask response) w name :
  session w !! "username" = Some name ->
  login_required f w = f w.
Proof. intros H. run_gate. rewrite H. reflexivity. Qed.

(** *** Which views answer 401 *)

Lemma ret_never_401 (r : response) : status_of r <> 401 -> never_401 (ret r).
Proof. intros H w. exact H. Qed.

Lemma login_required_never_401 (f : flask response) :
  never_401 f -> never_401 (login_required f).
Proof.
  intros Hf w. unfold login_required, bind, get_session. cbn [fst snd].
  destruct (session w !! "username"); [apply Hf | cbn; discriminate].
Qed.

Lemma history_never_401 json_loads chat_id d :
  never_401 (get_chat_history_api json_loads chat_id d).
Proof.
  apply login_required_never_401. intros w.
  unfold bind, get_session. cbn [fst snd].
  destruct (nonempty chat_id) as [cid|].
  - destruct (get_chat_by_id cid w) as [[chat|] w']; cbn [fst snd];
      [| cbn; discriminate].
    destruct (negb _); cbn [ret fst]; [cbn; discriminate |].
    unfold load_history.
    destruct (Database.get_chat_history _ _ _); cbn; discriminate.
  - destruct (session w !! "session_id"); cbn [ret fst]; [| cbn; discriminate].
    unfold load_history.
    destruct (Database.get_chat_history _ _ _); cbn; discriminate.
Qed.

Lemma bind_never_401 {A} (m : flask A) (k : A -> flask response)
      (P : A -> Prop) :
  (forall w, P (fst (m w))) ->
  (forall a, P a -> never_401 (k a)) ->
  never_401 (bind m k).
Proof. intros Hm Hk w. unfold bind. apply Hk, Hm. Qed.

Lemma send_never_401 user_data uuid_read d now requests_post :
  never_401 (send_message user_data uuid_read d now requests_post).
Proof.
  apply login_required_never_401.
  destruct ((if falsy_body user_data then None else user_data) ≫= (.!! "message"))
    as [message|]; [| apply ret_never_401; cbn; discriminate].
  apply (bind_never_401 _ _
           (fun target => match target with
                          | inl failure => status_of failure <> 401
                          | inr _ => True
                          end)).
  - intros w. destruct (nonempty _) as [wid|]; unfold bind.
    + destruct (fst (get_webhook_by_id uuid_read wid w)); cbn; [exact I | discriminate].
    + destruct (fst (read_webhooks uuid_read w)); cbn; [discriminate | exact I].
  - intros [failure|url] Htarget; [apply ret_never_401, Htarget |].
    apply (bind_never_401 _ _ (fun _ => True)); [intros; exact I | intros s _].
    apply (bind_never_401 _ _ (fun _ => True)); [intros; exact I | intros _ _].
    apply (bind_never_401 _ _ (fun _ => True)); [intros; exact I | intros s' _].
    destruct (s' !! "session_id") as [sid|]; [| apply ret_never_401; cbn; discriminate].
    cbn zeta.
    apply (bind_never_401 _ _ (fun _ => True)); [intros; exact I | intros _ _].
    destruct (requests_post _ _) as [| | |[reply|]];
      apply ret_never_401; cbn; discriminate.
Qed.

Lemma gate_and_check_401 (rest : gmap string string -> flask response) w :
  (forall s, never_401 (rest s)) ->
  status_of
    (fst (login_required
            (bind get_session
               (fun s : gmap string string =>
                  if negb (truthy (s !! "user_id")) then ret no_user_in_session
                  else rest s)) w)) = 401 ->
  is_Some (session w !! "username")
  /\ truthy (session w !! "user_id") = false.
Proof.
  intros Hrest. unfold login_required, bind, get_session. cbn [fst snd].
  destruct (session w !! "username") as [name|]; [| cbn; discriminate].
  destruct (truthy (session w !! "user_id")); cbn [negb].
  - intros H. destruct (Hrest (session w) w H).
  - intros _. split; [exists name |]; reflexivity.
Qed.

Ltac never_401_step :=
  first
    [ apply ret_never_401; cbn; discriminate
    | apply (bind_never_401 _ _ (fun _ => True)); [intros; exact I | intros ? _] ].

Lemma chat_views_401 json_loads (r : request) w :
  checks_user_id r = true ->
  status_of (fst (dispatch json_loads r w)) = 401 ->
  is_Some (session w !! "username")
  /\ truthy (session w !! "user_id") = false.
Proof.
  intros Hc.
  destruct r; try discriminate Hc; cbn [dispatch];
    unfold get_chats, create_chat, update_chat_endpoint, rename_chat_endpoint,
      delete_chat_endpoint; cbn zeta;
    apply gate_and_check_401; intros s.
  - repeat never_401_step.
  - repeat never_401_step.
  - never_401_step. destruct a as [chat|]; [| never_401_step].
    destruct (negb _); [never_401_step |].
    destruct (bool_decide _); repeat never_401_step.
    destruct a as [updated|]; never_401_step.
  - never_401_step. destruct a as [chat|]; [| never_401_step].
    destruct (negb _); [never_401_step |].
    destruct (_ ≫= _) as [raw|]; [| never_401_step].
    destruct (bool_decide _); [never_401_step |].
    destruct (_ <? _)%nat; [never_401_step |].
    never_401_step. destruct a as [updated|]; never_401_step.
  - never_401_step. destruct a as [chat|]; [| never_401_step].
    destruct (negb _); [never_401_step |].
    never_401_step. destruct a; repeat never_401_step.
Qed.

Lemma other_views_never_401 json_loads (r : request) :
  checks_user_id r = false -> never_401 (dispatch json_loads r).
Proof.
  intros Hc. destruct r; try discriminate Hc; cbn [dispatch].
  - apply ret_never_401. cbn; discriminate.
  - unfold login. destruct m.
    + never_401_step. destruct (a !! "username"); never_401_step.
    + destruct (_ ≫= _) as [raw|]; [| never_401_step].
      destruct (_ <? _)%nat; [never_401_step |].
      never_401_step. destruct a as [user|]; [| never_401_step].
      repeat never_401_step.
  - unfold logout. repeat never_401_step.
  - apply login_required_never_401. never_401_step.
  - apply login_required_never_401. never_401_step.
  - apply login_required_never_401. repeat never_401_step.
  - unfold update_webhook_legacy.
    destruct (_ ≫= _) as [url|]; repeat never_401_step.
  - apply history_never_401.
  - apply send_never_401.
Qed.

(** C1, as stated, fails: with nothing bound in the session, the API
    route GET /api/chats answers with the redirect to /login (status 302),
    not with a 401. *)
Lemma C1_api_redirect_counterexample :
  dispatch no_json GetApiChats anonymous_world
    = (Redirect "/login", anonymous_world)
  /\ status_of (fst (dispatch no_json GetApiChats anonymous_world)) <> 401.
Proof. split; [reflexivity | vm_compute; discriminate]. Qed.

(** C1, amended: every route behind [login_required], page or API alike,
    answers a request whose session has no username with a redirect to
    /login and changes nothing; the chat routes that check [user_id]
    themselves answer 401 when a username is bound and [user_id] is
    missing or empty, and that is the only case in which a gated route
    answers 401. *)
Theorem C1_gate_redirects_and_401 json_loads (r : request) (w : world) :
  gated r = true ->
  (session w !! "username" = None ->
   dispatch json_loads r w = (Redirect "/login", w))
  /\ (checks_user_id r = true ->
      is_Some (session w !! "username") ->
      truthy (session w !! "user_id") = false ->
      dispatch json_loads r w = (no_user_in_session, w)
      /\ status_of no_user_in_session = 401)
  /\ (status_of (fst (dispatch json_loads r w)) = 401 ->
      checks_user_id r = true
      /\ is_Some (session w !! "username")
      /\ truthy (session w !! "user_id") = false).
Proof.
  intros Hg. split; [| split].
  - intros Hanon.
    destruct r; try discriminate Hg; cbn [dispatch];
      apply login_required_anonymous; exact Hanon.
  - intros Hc [name Hname] Hid. split; [| reflexivity].
    destruct r; try discriminate Hc; cbn [dispatch];
      unfold get_chats, create_chat, update_chat_endpoint,
        rename_chat_endpoint, delete_chat_endpoint;
      rewrite (login_required_authenticated _ _ _ Hname);
      unfold bind, get_session; cbn [fst snd]; rewrite Hid; reflexivity.
  - intros H401. destruct (checks_user_id r) eqn:Hc.
    + split; [reflexivity |]. exact (chat_views_401 json_loads r w Hc H401).
    + destruct (other_views_never_401 json_loads r Hc w H401).
Qed.

Lemma C1_gate_witness :
  dispatch no_json GetApiChats anonymous_world
    = (Redirect "/login", anonymous_world)
  /\ dispatch no_json (DeleteApiChat "c1")
       (with_session {["username" := "alice"]} anonymous_world)
     = (no_user_in_session,
        with_session {["username" := "alice"]} anonymous_world).
Proof.
  split.
  - apply (C1_gate_redirects_and_401 no_json GetApiChats anonymous_world);
      reflexivity.
  - apply (C1_gate_redirects_and_401 no_json (DeleteApiChat "c1")
             (with_session {["username" := "alice"]} anonymous_world)).
    + reflexivity.
    + reflexivity.
    + exists "alice". reflexivity.
    + reflexivity.
Defined.

(* ===================================================================== *)
(** ** C2: chats of another user *)
(* ===================================================================== *)

Lemma ensured_keeps_found_chats chat_id w c :
  fst (get_chat_by_id chat_id w) = Some c ->
  chats_file (files (ensured w)) = chats_file (files w).
Proof.
  intros H. rewrite (found_chat_file _ _ _ H).
  apply chats_file_ensured, (found_chat_file _ _ _ H).
Qed.

Ltac enter_view Hname :=
  rewrite (login_required_authenticated _ _ _ Hname);
  unfold bind, get_session; cbn [fst snd].

Section ForeignChat.

Variables (w : world) (chat_id uid name : string) (c : chat).
Hypothesis Hname : session w !! "username" = Some name.
Hypothesis Huid : session w !! "user_id" = Some uid.
Hypothesis Hfound : fst (get_chat_by_id chat_id w) = Some c.
Hypothesis Hown : c_user_id c <> Some uid.

Let refused : response * world :=
  (Json 403 [("error", JStr "Unauthorized.")], ensured w).

Lemma foreign_owner_test : bool_decide (c_user_id c = Some uid) = false.
Proof. apply bool_decide_eq_false_2; exact Hown. Qed.

Lemma rename_foreign data now :
  uid <> "" -> rename_chat_endpoint chat_id data now w = refused.
Proof.
  intros Hne. unfold rename_chat_endpoint. enter_view Hname.
  rewrite Huid, (truthy_Some _ Hne). cbn [negb].
  destruct (get_chat_by_id chat_id w) as [found w'] eqn:E.
  rewrite get_chat_by_id_eq in E. injection E as <- <-.
  cbn [fst snd] in Hfound |- *. rewrite Hfound, foreign_owner_test.
  reflexivity.
Qed.

Lemma delete_foreign :
  uid <> "" -> delete_chat_endpoint chat_id w = refused.
Proof.
  intros Hne. unfold delete_chat_endpoint. enter_view Hname.
  rewrite Huid, (truthy_Some _ Hne). cbn [negb].
  destruct (get_chat_by_id chat_id w) as [found w'] eqn:E.
  rewrite get_chat_by_id_eq in E. injection E as <- <-.
  cbn [fst snd] in Hfound |- *. rewrite Hfound, foreign_owner_test.
  reflexivity.
Qed.

Lemma history_foreign json_loads d :
  chat_id <> "" ->
  get_chat_history_api json_loads (Some chat_id) d w = refused.
Proof.
  intros Hne. unfold get_chat_history_api. enter_view Hname.
  unfold nonempty. rewrite (truthy_Some _ Hne).
  destruct (get_chat_by_id chat_id w) as [found w'] eqn:E.
  rewrite get_chat_by_id_eq in E. injection E as <- <-.
  cbn [fst snd] in Hfound |- *. rewrite Hfound, Huid, foreign_owner_test.
  reflexivity.
Qed.

Lemma refused_unchanged : forbidden_unchanged w refused.
Proof.
  unfold forbidden_unchanged, refused. cbn [fst snd].
  split; [reflexivity | split].
  - exact (ensured_keeps_found_chats _ _ _ Hfound).
  - apply ensured_session.
Qed.

End ForeignChat.

(** C2: a rename, delete or history request of an authenticated user for
    a chat whose owner is someone else is answered 403, and neither
    chats.json nor the session changes. *)
Theorem C2_foreign_chat_forbidden json_loads (w : world)
        (chat_id uid name : string) (c : chat)
        (data : option (gmap string string)) (now : string) (d : Database.db) :
  session w !! "username" = Some name ->
  session w !! "user_id" = Some uid ->
  uid <> "" ->
  chat_id <> "" ->
  fst (get_chat_by_id chat_id w) = Some c ->
  c_user_id c <> Some uid ->
  forbidden_unchanged w (dispatch json_loads (PutApiChatRename chat_id data now) w)
  /\ forbidden_unchanged w (dispatch json_loads (DeleteApiChat chat_id) w)
  /\ forbidden_unchanged w
       (dispatch json_loads (GetApiChatHistory (Some chat_id) d) w).
Proof.
  intros Hname Huid Hne Hcid Hfound Hown. cbn [dispatch].
  rewrite (rename_foreign w chat_id uid name c Hname Huid Hfound Hown data now Hne).
  rewrite (delete_foreign w chat_id uid name c Hname Huid Hfound Hown Hne).
  rewrite (history_foreign w chat_id uid name c Hname Huid Hfound Hown
             json_loads d Hcid).
  pose proof (refused_unchanged w chat_id c Hfound) as H.
  repeat split; apply H.
Qed.

Lemma C2_foreign_chat_witness :
  forbidden_unchanged alice_world
    (dispatch no_json
       (PutApiChatRename "c-bob" (Some {["title" := "mine now"]}) "2026-01-08T09:00:00")
       alice_world)
  /\ forbidden_unchanged alice_world
       (dispatch no_json (DeleteApiChat "c-bob") alice_world)
  /\ forbidden_unchanged alice_world
       (dispatch no_json
          (GetApiChatHistory (Some "c-bob") (Database.Table [])) alice_world).
Proof.
  apply (C2_foreign_chat_forbidden no_json alice_world "c-bob" "u-alice" "Alice"
           chat_bob).
  - reflexivity.
  - reflexivity.
  - discriminate.
  - discriminate.
  - reflexivity.
  - discriminate.
Defined.

(* ===================================================================== *)
(** ** C3: history normalisation *)
(* ===================================================================== *)

Section Normalisation.

Import Database.
Variable json_loads : string -> option pyval.

Lemma format_step_spec acc (r : row) :
  format_step acc r = (acc ++ option_list (normalised_entry r))%list.
Proof.
  unfold format_step, normalised_entry, get_default.
  destruct (row_message r) as [| | | | | |items];
    try (cbn; rewrite app_nil_r; reflexivity).
  destruct (assoc "type" items) as [[| | | |t| |]|];
    try (cbn; rewrite app_nil_r; reflexivity).
  cbn. repeat case_bool_decide; cbn; rewrite ?app_nil_r; reflexivity.
Qed.

Lemma fold_format_step raw : forall acc,
  fold_left format_step raw acc = (acc ++ normalise_spec raw)%list.
Proof.
  induction raw as [|r raw IH]; intros acc; cbn [fold_left].
  - unfold normalise_spec. cbn. rewrite app_nil_r. reflexivity.
  - rewrite IH, format_step_spec, <- app_assoc. f_equal.
    unfold normalise_spec. cbn [omap list_omap].
    destruct (normalised_entry r); reflexivity.
Qed.

Lemma format_history_spec raw : format_history raw = normalise_spec raw.
Proof. unfold format_history. apply fold_format_step. Qed.

(** Normalisation goes record by record, so the order of the input is the
    order of the output. *)
Lemma format_history_app raw1 raw2 :
  format_history (raw1 ++ raw2) = (format_history raw1 ++ format_history raw2)%list.
Proof.
  rewrite !format_history_spec. unfold normalise_spec. apply omap_app.
Qed.

Lemma parse_message_id r : row_id (parse_message json_loads r) = row_id r.
Proof.
  unfold parse_message. destruct (row_message r); try reflexivity.
  destruct (json_loads s); reflexivity.
Qed.

Lemma insert_by_id_perm r sorted : Permutation (insert_by_id r sorted) (r :: sorted).
Proof.
  induction sorted as [|r' rest IH]; cbn [insert_by_id]; [reflexivity |].
  destruct (row_id r' <? row_id r)%Z; [| reflexivity].
  rewrite IH. apply perm_swap.
Qed.

Lemma order_by_id_perm rows : Permutation (order_by_id rows) rows.
Proof.
  induction rows as [|r rest IH]; cbn [order_by_id]; [reflexivity |].
  rewrite insert_by_id_perm, IH. reflexivity.
Qed.

Lemma insert_by_id_ascending r sorted :
  ascending sorted -> ascending (insert_by_id r sorted).
Proof.
  unfold ascending. induction 1 as [|r' rest Hrest IH Hall]; cbn [insert_by_id].
  - repeat constructor.
  - destruct (row_id r' <? row_id r)%Z eqn:E.
    + constructor; [exact IH |].
      apply Z.ltb_lt in E.
      rewrite Forall_forall. intros x Hx.
      rewrite insert_by_id_perm in Hx.
      apply elem_of_cons in Hx as [-> | Hx]; [lia |].
      rewrite Forall_forall in Hall. apply Hall, Hx.
    + apply Z.ltb_ge in E. constructor; [constructor; assumption |].
      constructor; [lia |].
      rewrite Forall_forall in Hall |- *. intros x Hx.
      specialize (Hall x Hx). lia.
Qed.

Lemma order_by_id_ascending rows : ascending (order_by_id rows).
Proof.
  induction rows as [|r rest IH]; cbn [order_by_id].
  - constructor.
  - apply insert_by_id_ascending, IH.
Qed.

Lemma map_parse_ascending rows :
  ascending rows -> ascending (List.map (parse_message json_loads) rows).
Proof.
  unfold ascending. induction 1 as [|r rest Hrest IH Hall]; cbn [List.map].
  - constructor.
  - constructor; [exact IH |].
    rewrite Forall_forall in Hall |- *. intros x Hx.
    apply list_elem_of_In, in_map_iff in Hx as [y [<- Hy]].
    rewrite !parse_message_id. apply Hall, list_elem_of_In, Hy.
Qed.

(** [get_chat_history] returns for every state of the store. *)
Lemma get_chat_history_returns d session_id :
  get_chat_history json_loads d session_id =
  Returns match d with
          | Table rows =>
              List.map (parse_message json_loads)
                (order_by_id
                   (List.filter
                      (fun r => bool_decide (row_session_id r = session_id)) rows))
          | _ => []
          end.
Proof. destruct d; reflexivity. Qed.

End Normalisation.

(** C3: normalisation yields, in the order of the records, one
    {role, content} entry per record whose message is an object of type
    "human" (role "user") or "ai" (role "assistant") and nothing for any
    other record; the records come from the store in ascending id order;
    and for every state of the store and every shape of message the
    fetch returns and the handler answers 200 with the normalised list. *)
Theorem C3_history_normalised_in_order json_loads
        (raw : list Database.row) (d : Database.db)
        (chat_id : option string) (session_id : string) :
  format_history raw = normalise_spec raw
  /\ exists fetched,
       Database.get_chat_history json_loads d session_id = Returns fetched
       /\ ascending fetched
       /\ load_history json_loads chat_id session_id d =
          Json 200 [("chat_id", jopt chat_id);
                    ("session_id", JStr session_id);
                    ("history", JEntries (normalise_spec fetched));
                    ("total_messages", JNum (length (normalise_spec fetched)))].
Proof.
  split; [apply format_history_spec |].
  eexists. split; [apply get_chat_history_returns |]. split.
  - destruct d; try constructor.
    apply map_parse_ascending, order_by_id_ascending.
  - unfold load_history. rewrite get_chat_history_returns.
    cbn [and_then try_except]. rewrite format_history_spec. reflexivity.
Qed.

(** The example of the specification: a human and an ai message, in id
    order, come back as user and assistant; a system message, an
    undecodable text and a NULL are dropped. *)
Example history_of_alice :
  fst (get_chat_history_api toy_loads None (Database.Table history_table)
         alice_world)
  = Json 200 [("chat_id", JStr "c-alice"); ("session_id", JStr "s-alice");
              ("history", JEntries [ {| role := "user"; content := PStr "Hi" |};
                                     {| role := "assistant"; content := PStr "Hello!" |} ]);
              ("total_messages", JNum 2)].
Proof. vm_compute. reflexivity. Qed.

(* ===================================================================== *)
(** ** C4: failures of the history store *)
(* ===================================================================== *)

(** A failure of the store never reaches the handler: [get_chat_history]
    turns it into an empty list. *)
Lemma get_chat_history_swallows json_loads d session_id :
  (forall rows, d <> Database.Table rows) ->
  Database.get_chat_history json_loads d session_id = Returns [].
Proof.
  intros H. destruct d as [msg|msg|rows]; try reflexivity.
  destruct (H rows eq_refl).
Qed.

(** The [except] branch of the handler does add the [error] field, for an
    exception that reaches it. *)
Lemma handler_except_branch_reports chat_id session_id e :
  try_except (Raises e)
    (fun e =>
       Returns (Json 200 [("chat_id", jopt chat_id);
                          ("session_id", JStr session_id);
                          ("history", JEntries []);
                          ("total_messages", JNum 0);
                          ("error", JStr ("Could not load chat history: "
                                          ++ exn_str e))]))
  = Returns (Json 200 [("chat_id", jopt chat_id);
                       ("session_id", JStr session_id);
                       ("history", JEntries []);
                       ("total_messages", JNum 0);
                       ("error", JStr ("Could not load chat history: "
                                       ++ exn_str e))]).
Proof. reflexivity. Qed.

Lemma load_history_store_failure json_loads chat_id session_id d :
  (forall rows, d <> Database.Table rows) ->
  load_history json_loads chat_id session_id d =
  Json 200 [("chat_id", jopt chat_id); ("session_id", JStr session_id);
            ("history", JEntries []); ("total_messages", JNum 0)].
Proof.
  intros H. unfold load_history.
  rewrite (get_chat_history_swallows _ _ _ H). reflexivity.
Qed.

(** C4, at the failing input: with the store unreachable, GET
    /api/chat/history for Alice's active chat answers 200 with an empty
    history and the chat and session identifiers, but the body has no
    [error] field. *)
Theorem C4_unreachable_store_omits_error :
  dispatch no_json
    (GetApiChatHistory None (Database.ConnectionFails "connection refused"))
    alice_world
  = (Json 200 [("chat_id", JStr "c-alice"); ("session_id", JStr "s-alice");
               ("history", JEntries []); ("total_messages", JNum 0)],
     alice_world)
  /\ has_field "error"
       (fst (dispatch no_json
               (GetApiChatHistory None
                  (Database.ConnectionFails "connection refused"))
               alice_world)) = false.
Proof. split; vm_compute; reflexivity. Qed.

(* ===================================================================== *)
(** ** Updating a chat (C5, C10) *)
(* ===================================================================== *)

Lemma update_first_found chat_id title now : forall chats c,
  chat_with_id chat_id chats = Some c ->
  exists chats',
    update_first chat_id {["title" := title]} now chats
      = Some (retitled title now c, chats')
    /\ chat_with_id chat_id chats' = Some (retitled title now c)
    /\ length chats' = length chats.
Proof.
  unfold chat_with_id.
  induction chats as [|x rest IH]; intros c Hfind; [discriminate |].
  cbn [List.find update_first] in *.
  destruct (bool_decide (c_id x = chat_id)) eqn:E.
  - injection Hfind as <-. rewrite lookup_singleton_eq.
    eexists. split; [reflexivity |]. split; [| reflexivity].
    cbn [List.find retitled c_id]. rewrite E. reflexivity.
  - destruct (IH c Hfind) as (chats' & -> & Hfind' & Hlen).
    eexists. split; [reflexivity |]. split.
    + cbn [List.find]. rewrite E. exact Hfind'.
    + cbn [length]. rewrite Hlen. reflexivity.
Qed.

Lemma update_chat_found chat_id title now w c :
  chat_with_id chat_id (stored_chats w) = Some c ->
  exists chats',
    update_chat chat_id {["title" := title]} now w
      = (Some (retitled title now c), with_chats chats' (ensured w))
    /\ chat_with_id chat_id chats' = Some (retitled title now c)
    /\ length chats' = length (stored_chats w).
Proof.
  intros Hfind.
  destruct (update_first_found chat_id title now _ _ Hfind)
    as (chats' & Hupd & Hfind' & Hlen).
  exists chats'. split; [| split; assumption].
  unfold update_chat, bind. rewrite read_chats_eq. cbn [fst snd].
  rewrite Hupd. rewrite write_chats_eq, ensured_idem. reflexivity.
Qed.

Lemma stored_chats_with_chats chats w : stored_chats (with_chats chats w) = chats.
Proof. reflexivity. Qed.

Lemma session_with_chats chats w : session (with_chats chats w) = session w.
Proof. reflexivity. Qed.

Lemma body_with_field (data : gmap string string) key value :
  data !! key = Some value -> falsy_body (Some data) = false.
Proof.
  intros H. unfold falsy_body. apply bool_decide_eq_false_2.
  intros ->. rewrite lookup_empty in H. discriminate.
Qed.

Section OwnChat.

Variables (w : world) (chat_id uid name : string) (c : chat).
Hypothesis Hname : session w !! "username" = Some name.
Hypothesis Huid : session w !! "user_id" = Some uid.
Hypothesis Hne : uid <> "".
Hypothesis Hfound : fst (get_chat_by_id chat_id w) = Some c.
Hypothesis Hown : c_user_id c = Some uid.

Lemma found_stored : chat_with_id chat_id (stored_chats w) = Some c.
Proof. rewrite get_chat_by_id_eq in Hfound. exact Hfound. Qed.

Lemma own_owner_test : bool_decide (c_user_id c = Some uid) = true.
Proof. apply bool_decide_eq_true_2; exact Hown. Qed.

(** The common prefix of the chat views: gate, [user_id] check, lookup
    and ownership test all pass. *)
Ltac pass_checks :=
  enter_view Hname; rewrite Huid, (truthy_Some _ Hne); cbn [negb];
  rewrite get_chat_by_id_eq; cbn [fst snd];
  fold (chat_with_id chat_id (stored_chats w));
  rewrite found_stored, own_owner_test; cbn [negb].

Lemma rename_rejected data raw now :
  data !! "title" = Some raw ->
  strip raw = "" \/ 100 < String.length (strip raw) ->
  exists body,
    rename_chat_endpoint chat_id (Some data) now w = (Json 400 body, ensured w).
Proof.
  intros Htitle Hbad. unfold rename_chat_endpoint. pass_checks.
  rewrite (body_with_field _ _ _ Htitle). cbn [mbind option_bind].
  rewrite Htitle.
  destruct Hbad as [Hempty | Hlong].
  - rewrite (bool_decide_eq_true_2 _ Hempty). eexists. reflexivity.
  - destruct (bool_decide (strip raw = "")); [eexists; reflexivity |].
    apply Nat.ltb_lt in Hlong. rewrite Hlong. eexists. reflexivity.
Qed.

Lemma rename_accepted data raw now :
  data !! "title" = Some raw ->
  strip raw <> "" ->
  String.length (strip raw) <= 100 ->
  exists chats',
    rename_chat_endpoint chat_id (Some data) now w
    = (Json 200 [("message", JStr "Chat renamed successfully.");
                 ("chat", JChat (retitled (strip raw) now c))],
       with_chats chats' (ensured w))
    /\ chat_with_id chat_id chats' = Some (retitled (strip raw) now c).
Proof.
  intros Htitle Hnonempty Hshort. unfold rename_chat_endpoint. pass_checks.
  rewrite (body_with_field _ _ _ Htitle). cbn [mbind option_bind].
  rewrite Htitle.
  rewrite (bool_decide_eq_false_2 _ Hnonempty).
  assert (Hlen : (100 <? String.length (strip raw))%nat = false)
    by (apply Nat.ltb_ge; exact Hshort).
  rewrite Hlen.
  destruct (update_chat_found chat_id (strip raw) now (ensured w) c)
    as (chats' & Hupd & Hfind' & _).
  { rewrite stored_chats_ensured. exact found_stored. }
  rewrite Hupd. cbn [fst snd]. rewrite ensured_idem.
  exists chats'. split; [reflexivity | exact Hfind'].
Qed.

Lemma generic_update_accepted data title now :
  data !! "title" = Some title ->
  data !! "action" <> Some "switch" ->
  exists chats',
    update_chat_endpoint chat_id (Some data) now w
    = (Json 200 [("message", JStr "Chat updated successfully.");
                 ("chat", JChat (retitled title now c))],
       with_chats chats' (ensured w))
    /\ chat_with_id chat_id chats' = Some (retitled title now c).
Proof.
  intros Htitle Haction. unfold update_chat_endpoint. pass_checks.
  rewrite (body_with_field _ _ _ Htitle). cbn [default from_option id].
  rewrite (bool_decide_eq_false_2 _ Haction). rewrite Htitle.
  destruct (update_chat_found chat_id title now (ensured w) c)
    as (chats' & Hupd & Hfind' & _).
  { rewrite stored_chats_ensured. exact found_stored. }
  rewrite Hupd. cbn [fst snd]. rewrite ensured_idem.
  exists chats'. split; [reflexivity | exact Hfind'].
Qed.

End OwnChat.

(* ===================================================================== *)
(** ** C5: validation in the rename endpoint *)
(* ===================================================================== *)

(** C5, as stated, fails: a title of 101 characters, one hundred letters
    and a trailing space, is not rejected; it is trimmed to 100
    characters, the rename succeeds and the stored title changes. *)
Lemma C5_trailing_space_counterexample :
  String.length (nchars 100 "a" ++ " ") = 101
  /\ status_of
       (fst (rename_chat_endpoint "c-alice"
               (Some {["title" := nchars 100 "a" ++ " "]})
               "2026-01-08T09:00:00" alice_world)) = 200
  /\ c_title <$>
       fst (get_chat_by_id "c-alice"
              (snd (rename_chat_endpoint "c-alice"
                      (Some {["title" := nchars 100 "a" ++ " "]})
                      "2026-01-08T09:00:00" alice_world)))
     = Some (nchars 100 "a").
Proof. repeat split; vm_compute; reflexivity. Qed.

(** C5, amended: for a rename request of the owner of an existing chat,
    a title that after trimming is empty or longer than 100 characters is
    rejected with 400 and the stored chats, that chat included, stay as
    they were; any other title is trimmed and stored, and [updated_at] is
    set to the time of the request. *)
Theorem C5_rename_validates_trimmed_title (w : world)
        (chat_id uid name : string) (c : chat)
        (data : gmap string string) (raw now : string) :
  session w !! "username" = Some name ->
  session w !! "user_id" = Some uid ->
  uid <> "" ->
  fst (get_chat_by_id chat_id w) = Some c ->
  c_user_id c = Some uid ->
  data !! "title" = Some raw ->
  (strip raw = "" \/ 100 < String.length (strip raw) ->
   status_of (fst (rename_chat_endpoint chat_id (Some data) now w)) = 400
   /\ stored_chats (snd (rename_chat_endpoint chat_id (Some data) now w))
      = stored_chats w
   /\ fst (get_chat_by_id chat_id
             (snd (rename_chat_endpoint chat_id (Some data) now w))) = Some c)
  /\ (strip raw <> "" -> String.length (strip raw) <= 100 ->
      fst (rename_chat_endpoint chat_id (Some data) now w)
      = Json 200 [("message", JStr "Chat renamed successfully.");
                  ("chat", JChat (retitled (strip raw) now c))]
      /\ fst (get_chat_by_id chat_id
                (snd (rename_chat_endpoint chat_id (Some data) now w)))
         = Some (retitled (strip raw) now c)).
Proof.
  intros Hname Huid Hne Hfound Hown Htitle. split.
  - intros Hbad.
    destruct (rename_rejected w chat_id uid name c Hname Huid Hne Hfound Hown
                data raw now Htitle Hbad) as [body ->].
    cbn [fst snd status_of]. split; [reflexivity |].
    rewrite get_chat_by_id_eq, !stored_chats_ensured. cbn [fst].
    split; [reflexivity |].
    rewrite get_chat_by_id_eq in Hfound. exact Hfound.
  - intros Hnonempty Hshort.
    destruct (rename_accepted w chat_id uid name c Hname Huid Hne Hfound Hown
                data raw now Htitle Hnonempty Hshort) as (chats' & -> & Hfind).
    cbn [fst snd]. split; [reflexivity |].
    rewrite get_chat_by_id_eq. cbn [fst].
    rewrite stored_chats_with_chats. exact Hfind.
Qed.

Lemma C5_rename_witness :
  status_of
    (fst (rename_chat_endpoint "c-alice" (Some {["title" := "   "]})
            "2026-01-08T09:00:00" alice_world)) = 400
  /\ fst (rename_chat_endpoint "c-alice" (Some {["title" := "  Plans "]})
            "2026-01-08T09:00:00" alice_world)
     = Json 200 [("message", JStr "Chat renamed successfully.");
                 ("chat", JChat (retitled "Plans" "2026-01-08T09:00:00" chat_alice))].
Proof.
  split.
  - apply (C5_rename_validates_trimmed_title alice_world "c-alice" "u-alice"
             "Alice" chat_alice {["title" := "   "]} "   " "2026-01-08T09:00:00");
      try reflexivity; try discriminate.
    left. reflexivity.
  - apply (C5_rename_validates_trimmed_title alice_world "c-alice" "u-alice"
             "Alice" chat_alice {["title" := "  Plans "]} "  Plans "
             "2026-01-08T09:00:00");
      try reflexivity; try discriminate.
    vm_compute. lia.
Defined.

(* ===================================================================== *)
(** ** C10: the generic update endpoint *)
(* ===================================================================== *)

(** C10: for the owner of an existing chat, PUT /api/chats/{id} with a
    body that holds a title, whatever string it is, and no switch action
    answers 200, stores that title as it came and sets [updated_at] to the
    time of the request. *)
Theorem C10_generic_update_stores_title_verbatim (w : world)
        (chat_id uid name : string) (c : chat)
        (data : gmap string string) (title now : string) :
  session w !! "username" = Some name ->
  session w !! "user_id" = Some uid ->
  uid <> "" ->
  fst (get_chat_by_id chat_id w) = Some c ->
  c_user_id c = Some uid ->
  data !! "title" = Some title ->
  data !! "action" <> Some "switch" ->
  fst (update_chat_endpoint chat_id (Some data) now w)
  = Json 200 [("message", JStr "Chat updated successfully.");
              ("chat", JChat (retitled title now c))]
  /\ fst (get_chat_by_id chat_id
            (snd (update_chat_endpoint chat_id (Some data) now w)))
     = Some (retitled title now c).
Proof.
  intros Hname Huid Hne Hfound Hown Htitle Haction.
  destruct (generic_update_accepted w chat_id uid name c Hname Huid Hne Hfound
              Hown data title now Htitle Haction) as (chats' & -> & Hfind).
  cbn [fst snd]. split; [reflexivity |].
  rewrite get_chat_by_id_eq. cbn [fst].
  rewrite stored_chats_with_chats. exact Hfind.
Qed.

Lemma C10_generic_update_witness :
  fst (update_chat_endpoint "c-alice" (Some {["title" := ""]})
         "2026-01-08T09:00:00" alice_world)
  = Json 200 [("message", JStr "Chat updated successfully.");
              ("chat", JChat (retitled "" "2026-01-08T09:00:00" chat_alice))]
  /\ fst (get_chat_by_id "c-alice"
            (snd (update_chat_endpoint "c-alice" (Some {["title" := ""]})
                    "2026-01-08T09:00:00" alice_world)))
     = Some (retitled "" "2026-01-08T09:00:00" chat_alice).
Proof.
  apply (C10_generic_update_stores_title_verbatim alice_world "c-alice"
           "u-alice" "Alice" chat_alice {["title" := ""]} "");
    try reflexivity; discriminate.
Defined.

(* ===================================================================== *)
(** ** C6: automatic titles *)
(* ===================================================================== *)

Lemma create_new_chat_auto user_id title d w :
  truthy title = false ->
  create_new_chat user_id title d w =
  let new_chat :=
    {| c_id := new_id d; c_user_id := user_id;
       c_session_id := new_session_id d;
       c_title := auto_title (length (user_chats user_id w)) (formatted_date d);
       c_created_at := now_created d; c_updated_at := now_updated d |} in
  (new_chat, with_chats (stored_chats w ++ [new_chat]) (ensured w)).
Proof.
  intros Hfalsy. unfold create_new_chat, bind.
  rewrite read_chats_eq. cbn [fst snd].
  assert (Hcount :
    (match title with
     | Some t =>
         if truthy title then ret t
         else fun w0 => ret (auto_title (length (get_user_chats user_id w0).1)
                               (formatted_date d)) (get_user_chats user_id w0).2
     | None =>
         fun w0 => ret (auto_title (length (get_user_chats user_id w0).1)
                          (formatted_date d)) (get_user_chats user_id w0).2
     end) (ensured w)
    = (auto_title (length (user_chats user_id w)) (formatted_date d), ensured w)).
  { destruct title as [t|]; rewrite ?Hfalsy;
      rewrite get_user_chats_eq; cbn [fst snd ret];
      rewrite ensured_idem, stored_chats_ensured; reflexivity. }
  rewrite Hcount. cbn [fst snd]. rewrite write_chats_eq, ensured_idem.
  reflexivity.
Qed.

Lemma user_chats_after_create user_id (new_chat : chat) w :
  c_user_id new_chat = user_id ->
  length (user_chats user_id (with_chats (stored_chats w ++ [new_chat]) (ensured w)))
  = S (length (user_chats user_id w)).
Proof.
  intros Hown. unfold user_chats. rewrite stored_chats_with_chats.
  rewrite List.filter_app, length_app. cbn [List.filter].
  rewrite (bool_decide_eq_true_2 _ Hown). cbn [length]. lia.
Qed.

Lemma run_creates user_id ds : forall w,
  fst (run_ops user_id (List.map Create ds) w)
  = numbered_titles (length (user_chats user_id w)) ds.
Proof.
  induction ds as [|d rest IH]; intros w; [reflexivity |].
  cbn [List.map run_ops numbered_titles]. unfold bind at 1.
  rewrite (create_new_chat_auto user_id None d w eq_refl).
  cbn [fst snd c_title]. unfold bind at 1. cbn [fst snd ret].
  rewrite IH, user_chats_after_create by reflexivity. reflexivity.
Qed.

(** C6, as stated, fails: with a deletion between the creations, three
    chats created without titles are numbered 1, 2, 2, not 1, 2, 3. *)
Lemma C6_interleaved_delete_counterexample :
  fst (run_ops (Some "u-alice")
         [Create (draw "1" "Jan 7, 22:30"); Create (draw "2" "Jan 7, 22:31");
          Delete "c-1"; Create (draw "3" "Jan 7, 22:32")]
         anonymous_world)
  = ["Chat-1 (Jan 7, 22:30)"; "Chat-2 (Jan 7, 22:31)"; "Chat-2 (Jan 7, 22:32)"]
  /\ fst (run_ops (Some "u-alice")
            [Create (draw "1" "Jan 7, 22:30"); Create (draw "2" "Jan 7, 22:31");
             Delete "c-1"; Create (draw "3" "Jan 7, 22:32")]
            anonymous_world)
     <> numbered_titles 0
          [draw "1" "Jan 7, 22:30"; draw "2" "Jan 7, 22:31"; draw "3" "Jan 7, 22:32"].
Proof. split; vm_compute; [reflexivity | discriminate]. Qed.

(** C6, amended: a chat created without a title (none, or an empty one)
    is titled "Chat-n (date)" with n one more than the number of chats the
    user has in the store at that moment; hence N creations in a row, with
    no deletion between them, by a user who has k live chats are numbered
    k+1, ..., k+N in creation order, and 1, ..., N when the user has none,
    whatever was created or deleted before. *)
Theorem C6_auto_title_counts_live_chats (user_id : option string)
        (d : draws) (ds : list draws) (w : world) :
  c_title (fst (create_new_chat user_id None d w))
    = "Chat-" ++ str_of_nat (length (user_chats user_id w) + 1)
      ++ " (" ++ formatted_date d ++ ")"
  /\ c_title (fst (create_new_chat user_id (Some "") d w))
     = "Chat-" ++ str_of_nat (length (user_chats user_id w) + 1)
       ++ " (" ++ formatted_date d ++ ")"
  /\ fst (run_ops user_id (List.map Create ds) w)
     = numbered_titles (length (user_chats user_id w)) ds.
Proof.
  split; [| split].
  - rewrite (create_new_chat_auto user_id None d w eq_refl). reflexivity.
  - rewrite (create_new_chat_auto user_id (Some "") d w eq_refl). reflexivity.
  - apply run_creates.
Qed.

(** After every chat of the user has been deleted, numbering starts at 1
    again. *)
Example titles_restart_after_deletes :
  fst (run_ops (Some "u-alice")
         [Create (draw "1" "Jan 7, 22:30"); Create (draw "2" "Jan 7, 22:31");
          Delete "c-1"; Delete "c-2";
          Create (draw "3" "Jan 8, 09:00"); Create (draw "4" "Jan 8, 09:01")]
         anonymous_world)
  = ["Chat-1 (Jan 7, 22:30)"; "Chat-2 (Jan 7, 22:31)";
     "Chat-1 (Jan 8, 09:00)"; "Chat-2 (Jan 8, 09:01)"].
Proof. vm_compute. reflexivity. Qed.

(* ===================================================================== *)
(** ** C7: the user upsert *)
(* ===================================================================== *)

Lemma lower_char_idem a : lower_char (lower_char a) = lower_char a.
Proof. destruct a as [[] [] [] [] [] [] [] []]; reflexivity. Qed.

Lemma same_letter_lower a b : same_letter a b -> lower_char a = lower_char b.
Proof.
  intros [-> | [[_ ->] | [_ ->]]]; [reflexivity | |];
    rewrite lower_char_idem; reflexivity.
Qed.

Lemma differ_only_in_case_lower s : forall t,
  differ_only_in_case s t -> lower s = lower t.
Proof.
  induction s as [|a s IH]; intros [|b t] H; cbn in H; try contradiction.
  - reflexivity.
  - destruct H as [Hab Hst]. cbn [lower].
    rewrite (same_letter_lower _ _ Hab), (IH _ Hst). reflexivity.
Qed.




Lemma update_last_login_found username now : forall users u,
  List.find (same_username username) users = Some u ->
  List.find (same_username username) (update_last_login username now users)
    = Some (relogged now u)
  /\ length (update_last_login username now users) = length users.
Proof.
  induction users as [|x rest IH]; intros u Hfind; [discriminate |].
  cbn [List.find update_last_login] in *.
  destruct (same_username username x) eqn:E.
  - injection Hfind as <-. cbn [List.find].
    fold (relogged now x).
    replace (same_username username (relogged now x)) with true
      by (symmetry; exact E).
    split; reflexivity.
  - cbn [List.find length]. rewrite E.
    destruct (IH u Hfind) as [-> ->]. split; reflexivity.
Qed.

Lemma find_appended username (new_user : user) : forall users,
  List.find (same_username username) users = None ->
  same_username username new_user = true ->
  List.find (same_username username) (users ++ [new_user]) = Some new_user.
Proof.
  induction users as [|x rest IH]; intros Hnone Hnew; cbn [List.find app] in *.
  - rewrite Hnew. reflexivity.
  - destruct (same_username username x); [discriminate |]. apply IH; assumption.
Qed.

Lemma stored_users_with_users users w : stored_users (with_users users w) = users.
Proof. reflexivity. Qed.

(** [add_user] as one step on the stored users. *)
Lemma add_user_eq username uuid t_created t_login w :
  add_user username uuid t_created t_login w =
  let users := stored_users (ensured w) in
  let users' :=
    match List.find (same_username username) users with
    | Some _ => update_last_login username t_login users
    | None =>
        (users ++ [{| u_id := uuid; u_username := username;
                      u_created_at := t_created; u_last_login := t_login |}])%list
    end in
  (List.find (same_username username) users', with_users users' (ensured w)).
Proof.
  unfold add_user, bind. rewrite read_users_eq. cbn [fst snd].
  rewrite !get_user_by_username_eq. cbn [fst snd].
  rewrite write_users_eq. cbn [fst snd]. rewrite !ensured_idem.
  rewrite ensured_with_users, stored_users_with_users. reflexivity.
Qed.

(** Whatever the store held, [add_user] returns a record. *)
Lemma add_user_returns username uuid t_created t_login w :
  exists rec,
    fst (add_user username uuid t_created t_login w) = Some rec
    /\ stored_users (snd (add_user username uuid t_created t_login w))
       = stored_users (ensured (snd (add_user username uuid t_created t_login w)))
    /\ List.find (same_username username)
         (stored_users (snd (add_user username uuid t_created t_login w)))
       = Some rec.
Proof.
  rewrite add_user_eq. cbn zeta. cbn [fst snd].
  rewrite ensured_with_users, stored_users_with_users.
  destruct (List.find (same_username username) (stored_users (ensured w)))
    as [u|] eqn:E.
  - destruct (update_last_login_found username t_login _ _ E) as [Hfind _].
    exists (relogged t_login u). rewrite Hfind. repeat split.
  - eexists. rewrite (find_appended username _ _ E).
    + repeat split.
    + unfold same_username. apply bool_decide_eq_true_2. reflexivity.
Qed.


(* ===================================================================== *)
(** ** C8: deleting the active chat *)
(* ===================================================================== *)

Lemma filter_out_found chat_id : forall chats c,
  chat_with_id chat_id chats = Some c ->
  length (List.filter (fun c => negb (bool_decide (c_id c = chat_id))) chats)
  < length chats.
Proof.
  unfold chat_with_id.
  induction chats as [|x rest IH]; intros c Hfind; [discriminate |].
  cbn [List.find List.filter length] in *.
  destruct (bool_decide (c_id x = chat_id)); cbn [negb length].
  - pose proof (List.filter_length_le
                  (fun c => negb (bool_decide (c_id c = chat_id))) rest). lia.
  - specialize (IH c Hfind). lia.
Qed.

Lemma filter_out_gone chat_id chats :
  chat_with_id chat_id
    (List.filter (fun c => negb (bool_decide (c_id c = chat_id))) chats) = None.
Proof.
  unfold chat_with_id.
  induction chats as [|x rest IH]; [reflexivity |].
  cbn [List.filter]. destruct (bool_decide (c_id x = chat_id)) eqn:E; cbn [negb].
  - exact IH.
  - cbn [List.find]. rewrite E. exact IH.
Qed.

Lemma delete_chat_found chat_id w c :
  chat_with_id chat_id (stored_chats w) = Some c ->
  delete_chat chat_id w =
  (true,
   with_chats
     (List.filter (fun c => negb (bool_decide (c_id c = chat_id))) (stored_chats w))
     (ensured w)).
Proof.
  intros Hfind. unfold delete_chat, bind. rewrite read_chats_eq. cbn [fst snd].
  pose proof (filter_out_found _ _ _ Hfind) as Hlt.
  apply Nat.ltb_lt in Hlt. rewrite Hlt.
  rewrite write_chats_eq, ensured_idem. reflexivity.
Qed.

Section DeleteOwnChat.

Variables (w : world) (chat_id uid name : string) (c : chat).
Hypothesis Hname : session w !! "username" = Some name.
Hypothesis Huid : session w !! "user_id" = Some uid.
Hypothesis Hne : uid <> "".
Hypothesis Hfound : fst (get_chat_by_id chat_id w) = Some c.
Hypothesis Hown : c_user_id c = Some uid.

Let remaining : list chat :=
  List.filter (fun c => negb (bool_decide (c_id c = chat_id))) (stored_chats w).

Lemma delete_own_chat :
  delete_chat_endpoint chat_id w =
  (Json 200 [("message", JStr "Chat deleted successfully.")],
   with_session
     (if bool_decide (session w !! "chat_id" = Some chat_id)
      then delete "session_id" (delete "chat_id" (session w))
      else session w)
     (with_chats remaining (ensured w))).
Proof.
  unfold delete_chat_endpoint. enter_view Hname.
  rewrite Huid, (truthy_Some _ Hne). cbn [negb].
  rewrite get_chat_by_id_eq. cbn [fst snd].
  fold (chat_with_id chat_id (stored_chats w)).
  rewrite (found_stored w chat_id c Hfound).
  rewrite (own_owner_test uid c Hown). cbn [negb].
  rewrite (delete_chat_found chat_id (ensured w) c)
    by (rewrite stored_chats_ensured; exact (found_stored w chat_id c Hfound)).
  cbn [fst snd]. rewrite ensured_idem, stored_chats_ensured.
  rewrite session_with_chats, ensured_session.
  fold remaining.
  destruct (bool_decide (session w !! "chat_id" = Some chat_id)).
  - unfold session_pop, bind, get_session, put_session, ret, with_session.
    cbn [fst snd files session with_chats].
    rewrite (ensured_session w). reflexivity.
  - unfold ret, with_session, with_chats. cbn [fst snd files session].
    rewrite (ensured_session w). reflexivity.
Qed.

End DeleteOwnChat.

(** C8: when the owner deletes a chat, the request succeeds and the chat
    is gone; if it was the active chat, the session loses [chat_id] and
    [session_id], and the next history request without a chat id answers
    200 with an empty history and "No active chat found."; if it was not
    the active chat, the session stays as it was. *)
Theorem C8_delete_clears_active_binding json_loads (w : world)
        (chat_id uid name : string) (c : chat)
        (query : option string) (d : Database.db) :
  session w !! "username" = Some name ->
  session w !! "user_id" = Some uid ->
  uid <> "" ->
  fst (get_chat_by_id chat_id w) = Some c ->
  c_user_id c = Some uid ->
  nonempty query = None ->
  fst (delete_chat_endpoint chat_id w)
    = Json 200 [("message", JStr "Chat deleted successfully.")]
  /\ fst (get_chat_by_id chat_id (snd (delete_chat_endpoint chat_id w))) = None
  /\ (session w !! "chat_id" = Some chat_id ->
      session (snd (delete_chat_endpoint chat_id w)) !! "chat_id" = None
      /\ session (snd (delete_chat_endpoint chat_id w)) !! "session_id" = None
      /\ fst (get_chat_history_api json_loads query d
                (snd (delete_chat_endpoint chat_id w)))
         = Json 200 [("history", JEntries []);
                     ("message", JStr "No active chat found.")])
  /\ (session w !! "chat_id" <> Some chat_id ->
      session (snd (delete_chat_endpoint chat_id w)) = session w).
Proof.
  intros Hname Huid Hne Hfound Hown Hquery.
  rewrite (delete_own_chat w chat_id uid name c Hname Huid Hne Hfound Hown).
  cbn [fst snd]. split; [reflexivity |]. split; [| split].
  - rewrite get_chat_by_id_eq. cbn [fst]. apply filter_out_gone.
  - intros Hactive. rewrite (bool_decide_eq_true_2 _ Hactive).
    cbn [session with_session].
    assert (Hc : delete "session_id" (delete "chat_id" (session w)) !! "chat_id"
                 = None)
      by (rewrite lookup_delete_ne by discriminate; apply lookup_delete_eq).
    assert (Hs : delete "session_id" (delete "chat_id" (session w)) !! "session_id"
                 = None)
      by apply lookup_delete_eq.
    split; [exact Hc |]. split; [exact Hs |].
    unfold get_chat_history_api.
    rewrite (login_required_authenticated _ _ name).
    + unfold bind, get_session. cbn [fst snd session with_session].
      rewrite Hquery, Hs. reflexivity.
    + cbn [session with_session].
      rewrite !lookup_delete_ne by discriminate. exact Hname.
  - intros Hother. rewrite (bool_decide_eq_false_2 _ Hother).
    reflexivity.
Qed.

Lemma C8_delete_active_witness :
  fst (delete_chat_endpoint "c-alice" alice_world)
    = Json 200 [("message", JStr "Chat deleted successfully.")]
  /\ fst (get_chat_history_api no_json None (Database.Table history_table)
            (snd (delete_chat_endpoint "c-alice" alice_world)))
     = Json 200 [("history", JEntries []);
                 ("message", JStr "No active chat found.")].
Proof.
  destruct (C8_delete_clears_active_binding no_json alice_world "c-alice"
              "u-alice" "Alice" chat_alice None (Database.Table history_table))
    as (Hok & _ & Hactive & _);
    try reflexivity; try discriminate.
  split; [exact Hok |]. apply Hactive. reflexivity.
Defined.

(* ===================================================================== *)
(** ** C9: the legacy webhook endpoint *)
(* ===================================================================== *)

Lemma write_webhooks_eq webhooks w :
  write_webhooks webhooks w = (tt, with_webhooks webhooks (ensured w)).
Proof. by_files w. Qed.

Lemma read_webhooks_modern uuid w webhooks :
  webhook_file (files w) = Doc (Webhooks webhooks) ->
  read_webhooks uuid w = (webhooks, ensured w).
Proof.
  destruct w as [[wf uf cf] s]. cbn [files webhook_file]. intros ->.
  destruct uf, cf; reflexivity.
Qed.

Lemma update_webhook_legacy_eq (data : gmap string string)
      (new_url uuid_read uuid_new : string) w :
  data !! "webhook_url" = Some new_url ->
  update_webhook_legacy (Some data) uuid_read uuid_new w =
  (Json 200 [("message", JStr "Webhook updated successfully.");
             ("webhook_url", JStr new_url)],
   with_webhooks
     match fst (read_webhooks uuid_read w) with
     | first :: _ =>
         <[0%nat := {| w_id := w_id first; w_name := w_name first;
                       w_url := new_url |}]> (fst (read_webhooks uuid_read w))
     | [] => [{| w_id := uuid_new; w_name := "Default Webhook"; w_url := new_url |}]
     end
     (ensured (snd (read_webhooks uuid_read w)))).
Proof.
  intros Hurl. unfold update_webhook_legacy.
  rewrite (body_with_field _ _ _ Hurl). cbn [mbind option_bind]. rewrite Hurl.
  unfold bind. cbn [fst snd]. rewrite write_webhooks_eq. reflexivity.
Qed.

(** C9: on an empty webhook registry the legacy POST /api/webhook creates
    one webhook, named "Default Webhook", with the posted URL; a second
    POST, with any URL, leaves one webhook with the same id and name and
    the new URL. *)
Theorem C9_legacy_post_creates_then_updates (w : world)
        (data data' : gmap string string)
        (url url' uuid_read uuid_new uuid_read' uuid_new' : string) :
  fst (read_webhooks uuid_read w) = [] ->
  data !! "webhook_url" = Some url ->
  data' !! "webhook_url" = Some url' ->
  status_of (fst (update_webhook_legacy (Some data) uuid_read uuid_new w)) = 200
  /\ webhook_file
       (files (snd (update_webhook_legacy (Some data) uuid_read uuid_new w)))
     = Doc (Webhooks [{| w_id := uuid_new; w_name := "Default Webhook";
                         w_url := url |}])
  /\ status_of
       (fst (update_webhook_legacy (Some data') uuid_read' uuid_new'
               (snd (update_webhook_legacy (Some data) uuid_read uuid_new w))))
     = 200
  /\ webhook_file
       (files
          (snd (update_webhook_legacy (Some data') uuid_read' uuid_new'
                  (snd (update_webhook_legacy (Some data) uuid_read uuid_new w)))))
     = Doc (Webhooks [{| w_id := uuid_new; w_name := "Default Webhook";
                         w_url := url' |}]).
Proof.
  intros Hempty Hurl Hurl'.
  rewrite (update_webhook_legacy_eq data url uuid_read uuid_new w Hurl).
  rewrite Hempty. cbn [fst snd status_of].
  split; [reflexivity |]. split; [reflexivity |].
  rewrite (update_webhook_legacy_eq data' url' uuid_read' uuid_new' _ Hurl').
  cbn [fst snd status_of]. split; [reflexivity |].
  rewrite (read_webhooks_modern uuid_read' _
             [{| w_id := uuid_new; w_name := "Default Webhook"; w_url := url |}])
    by reflexivity.
  reflexivity.
Qed.

Lemma C9_legacy_post_witness :
  webhook_file
    (files (snd (update_webhook_legacy (Some {["webhook_url" := "http://x"]})
                   "uuid-0" "uuid-1" anonymous_world)))
  = Doc (Webhooks [{| w_id := "uuid-1"; w_name := "Default Webhook";
                      w_url := "http://x" |}])
  /\ webhook_file
       (files
          (snd (update_webhook_legacy (Some {["webhook_url" := "http://y"]})
                  "uuid-2" "uuid-3"
                  (snd (update_webhook_legacy
                          (Some {["webhook_url" := "http://x"]})
                          "uuid-0" "uuid-1" anonymous_world)))))
     = Doc (Webhooks [{| w_id := "uuid-1"; w_name := "Default Webhook";
                         w_url := "http://y" |}]).
Proof.
  destruct (C9_legacy_post_creates_then_updates anonymous_world
              {["webhook_url" := "http://x"]} {["webhook_url" := "http://y"]}
              "http://x" "http://y" "uuid-0" "uuid-1" "uuid-2" "uuid-3")
    as (_ & H1 & _ & H2); try reflexivity.
  split; assumption.
Defined.

(** The registry is also empty when webhooks.json is unreadable or in the
    old format without a URL; the endpoint then behaves the same. *)
Example legacy_post_on_old_format :
  webhook_file
    (files (snd (update_webhook_legacy (Some {["webhook_url" := "http://x"]})
                   "uuid-0" "uuid-1"
                   {| files := {| webhook_file := Doc (Legacy None);
                                  users_file := Missing; chats_file := Corrupt |};
                      session := ∅ |})))
  = Doc (Webhooks [{| w_id := "uuid-1"; w_name := "Default Webhook";
                      w_url := "http://x" |}]).
Proof. vm_compute. reflexivity. Qed.

(* ===================================================================== *)
(** ** Login *)
(* ===================================================================== *)


Lemma session_set_eq key value w :
  session_set key value w = (tt, with_session (<[key := value]> (session w)) w).
Proof. reflexivity. Qed.



Lemma bind_run {A B} (m : flask A) (k : A -> flask B) w a w' :
  m w = (a, w') -> bind m k w = k a w'.
Proof. intros E. unfold bind. rewrite E. reflexivity. Qed.

Lemma activate_run (c : chat) w :
  (session_set "chat_id" (c_id c) ;; session_set "session_id" (c_session_id c)) w
  = (tt, activated c w).
Proof. reflexivity. Qed.

Lemma login_post_run (data : gmap string string)
      raw uuid t_created t_login d w rec w1 :
  data !! "username" = Some raw ->
  2 <= String.length (strip raw) ->
  add_user (strip raw) uuid t_created t_login w = (Some rec, w1) ->
  login POST (Some data) uuid t_created t_login d w
  = (Json 200 [("message", JStr "Login successful.");
               ("username", JStr (strip raw))],
     match sorted_desc (user_chats (Some (u_id rec)) (logged_in (strip raw) (u_id rec) w1)) with
     | [] =>
         activated (fst (create_new_chat (Some (u_id rec)) None d
                           (ensured (logged_in (strip raw) (u_id rec) w1))))
           (snd (create_new_chat (Some (u_id rec)) None d
                   (ensured (logged_in (strip raw) (u_id rec) w1))))
     | latest :: _ => activated latest (ensured (logged_in (strip raw) (u_id rec) w1))
     end).
Proof.
  intros Hname Hlen E.
  unfold login. rewrite (body_with_field _ _ _ Hname).
  cbn [mbind option_bind]. rewrite Hname.
  assert (Hlt : (String.length (strip raw) <? 2)%nat = false)
    by (apply Nat.ltb_ge; exact Hlen).
  rewrite Hlt.
  rewrite (bind_run _ _ _ _ _ E).
  rewrite (bind_run _ _ _ _ _ (session_set_eq _ _ _)).
  rewrite (bind_run _ _ _ _ _ (session_set_eq _ _ _)).
  change (with_session _ (with_session _ w1)) with (logged_in (strip raw) (u_id rec) w1).
  rewrite (bind_run _ _ _ _ _ (get_user_chats_eq _ _)).
  fold (user_chats (Some (u_id rec)) (logged_in (strip raw) (u_id rec) w1)).
  destruct (sorted_desc _) as [|latest rest].
  - destruct (create_new_chat (Some (u_id rec)) None d
                (ensured (logged_in (strip raw) (u_id rec) w1))) as [c w3] eqn:Ec.
    cbn [fst snd].
    assert (Hin :
      (default_chat <- create_new_chat (Some (u_id rec)) None d ;;
       session_set "chat_id" (c_id default_chat) ;;
       session_set "session_id" (c_session_id default_chat))
        (ensured (logged_in (strip raw) (u_id rec) w1))
      = (tt, activated c w3)).
    { rewrite (bind_run _ _ _ _ _ Ec). apply activate_run. }
    rewrite (bind_run _ _ _ _ _ Hin). reflexivity.
  - rewrite (bind_run _ _ _ _ _ (activate_run _ _)). reflexivity.
Qed.

Lemma session_logged_in username user_id w :
  session (logged_in username user_id w) !! "user_id" = Some user_id
  /\ session (logged_in username user_id w) !! "username" = Some username.
Proof.
  unfold logged_in. cbn [session with_session]. split.
  - apply lookup_insert_eq.
  - rewrite lookup_insert_ne by discriminate. apply lookup_insert_eq.
Qed.

Lemma session_activated (c : chat) w :
  session (activated c w) !! "chat_id" = Some (c_id c)
  /\ session (activated c w) !! "session_id" = Some (c_session_id c)
  /\ session (activated c w) !! "user_id" = session w !! "user_id"
  /\ session (activated c w) !! "username" = session w !! "username".
Proof.
  unfold activated. cbn [session with_session].
  split; [| split; [| split]].
  - rewrite lookup_insert_ne by discriminate. apply lookup_insert_eq.
  - apply lookup_insert_eq.
  - rewrite !lookup_insert_ne by discriminate. reflexivity.
  - rewrite !lookup_insert_ne by discriminate. reflexivity.
Qed.





(** Names that differ letter by letter only in case have the same
    [lower()], so the theorem below applies to them. *)
Lemma letterwise_variants_lower_equal (u1 u2 : string) :
  differ_only_in_case u1 u2 -> lower u1 = lower u2.
Proof. apply differ_only_in_case_lower. Qed.




(** The same two logins, run: the second finds Carol's record. *)
Example carol_logs_in_twice :
  List.map u_id
    (stored_users
       (snd (login POST (Some {["username" := "cAROL"]}) "u-other"
               "2026-01-09T10:00:00" "2026-01-09T10:00:01"
               (draw "9" "Jan 9, 10:00")
               (snd (login POST (Some {["username" := " Carol "]}) "u-carol"
                       "2026-01-08T09:00:00" "2026-01-08T09:00:01"
                       (draw "8" "Jan 8, 09:00") alice_world)))))
  = ["u-alice"; "u-bob"; "u-carol"].
Proof. vm_compute. reflexivity. Qed.

(* ===================================================================== *)
(** * Further properties of the code *)
(* ===================================================================== *)

(** ** The data files *)

(** X1: [ensure_data_file] leaves no file missing, is idempotent, and
    keeps the chats, the webhooks file content when present, and the
    session. *)
Theorem X1_ensure_data_file_creates_files (w : world) :
  webhook_file (files (snd (ensure_data_file w))) <> Missing
  /\ users_file (files (snd (ensure_data_file w))) <> Missing
  /\ chats_file (files (snd (ensure_data_file w))) <> Missing
  /\ ensure_data_file (snd (ensure_data_file w)) = ensure_data_file w
  /\ stored_chats (snd (ensure_data_file w)) = stored_chats w
  /\ stored_webhooks (snd (ensure_data_file w)) = stored_webhooks w
  /\ session (snd (ensure_data_file w)) = session w.
Proof.
  destruct w as [[wf uf cf] s].
  destruct wf, uf, cf; repeat split; discriminate.
Qed.

(** X2: when chats.json is missing, [ensure_data_file] rewrites users.json
    as empty, whatever it held: the users are read as none, and a login of
    a registered name creates a new record with a new id. *)
Theorem X2_missing_chats_file_resets_users (w : world)
        (username uuid t_created t_login : string) :
  chats_file (files w) = Missing ->
  fst (read_users w) = []
  /\ users_file (files (snd (read_users w))) = Doc []
  /\ fst (add_user username uuid t_created t_login w)
     = Some {| u_id := uuid; u_username := username;
               u_created_at := t_created; u_last_login := t_login |}
  /\ stored_users (snd (add_user username uuid t_created t_login w))
     = [{| u_id := uuid; u_username := username;
           u_created_at := t_created; u_last_login := t_login |}].
Proof.
  intros Hmissing.
  assert (Hwiped : stored_users (ensured w) = []
                   /\ users_file (files (ensured w)) = Doc []).
  { destruct w as [[wf uf cf] s]. cbn [files chats_file] in Hmissing. subst cf.
    destruct wf, uf; split; reflexivity. }
  destruct Hwiped as [Hnone Hfile].
  rewrite read_users_eq, add_user_eq. cbn zeta. cbn [fst snd].
  rewrite Hnone. cbn [List.find app stored_users with_users files users_file].
  unfold same_username. cbn [u_username].
  rewrite bool_decide_eq_true_2 by reflexivity.
  repeat split. exact Hfile.
Qed.

Lemma X2_missing_chats_file_witness :
  fst (add_user "alice" "u-new" "2026-02-01T08:00:00" "2026-02-01T08:00:01"
         world_without_chats_file)
  = Some {| u_id := "u-new"; u_username := "alice";
            u_created_at := "2026-02-01T08:00:00";
            u_last_login := "2026-02-01T08:00:01" |}.
Proof.
  apply (X2_missing_chats_file_resets_users world_without_chats_file
           "alice" "u-new" "2026-02-01T08:00:00" "2026-02-01T08:00:01").
  reflexivity.
Defined.

(** X3: reading a webhooks.json in the old shape with a URL migrates it
    once: the read returns one webhook named "Default Webhook" with that
    URL and the id drawn then, the file is rewritten in the new shape, and
    a later read returns the same webhook, id included. *)
Theorem X3_legacy_webhook_file_migrates_once (w : world)
        (url uuid uuid' : string) :
  webhook_file (files w) = Doc (Legacy (Some url)) ->
  url <> "" ->
  fst (read_webhooks uuid w)
  = [{| w_id := uuid; w_name := "Default Webhook"; w_url := url |}]
  /\ webhook_file (files (snd (read_webhooks uuid w)))
     = Doc (Webhooks [{| w_id := uuid; w_name := "Default Webhook"; w_url := url |}])
  /\ fst (read_webhooks uuid' (snd (read_webhooks uuid w)))
     = [{| w_id := uuid; w_name := "Default Webhook"; w_url := url |}].
Proof.
  intros Hfile Hurl.
  destruct w as [[wf uf cf] s]. cbn [files webhook_file] in Hfile. subst wf.
  assert (Ht : truthy (Some url) = true) by (apply truthy_Some; exact Hurl).
  destruct uf, cf; unfold read_webhooks, bind; cbn -[truthy]; rewrite Ht;
    cbn -[truthy]; rewrite ?Ht; repeat split.
Qed.

Lemma X3_legacy_migration_witness :
  fst (read_webhooks "uuid-2" (snd (read_webhooks "uuid-1" legacy_world)))
  = [{| w_id := "uuid-1"; w_name := "Default Webhook"; w_url := "http://old" |}].
Proof.
  apply (X3_legacy_webhook_file_migrates_once legacy_world "http://old"
           "uuid-1" "uuid-2").
  - reflexivity.
  - discriminate.
Defined.

(** X4: a chats.json that cannot be decoded is read as no chats and left
    as it is by the read; the next creation then writes a file that holds
    the new chat alone, titled Chat-1. *)
Theorem X4_corrupt_chats_file_reads_empty (w : world)
        (user_id : option string) (d : draws) :
  chats_file (files w) = Corrupt ->
  fst (read_chats w) = []
  /\ chats_file (files (snd (read_chats w))) = Corrupt
  /\ chats_file (files (snd (create_new_chat user_id None d w)))
     = Doc [{| c_id := new_id d; c_user_id := user_id;
               c_session_id := new_session_id d;
               c_title := "Chat-1 (" ++ formatted_date d ++ ")";
               c_created_at := now_created d; c_updated_at := now_updated d |}].
Proof.
  intros Hfile.
  assert (Hnone : stored_chats w = []) by (unfold stored_chats; rewrite Hfile; reflexivity).
  rewrite read_chats_eq. cbn [fst snd].
  rewrite (create_new_chat_auto user_id None d w eq_refl). cbn zeta. cbn [snd].
  unfold user_chats. rewrite Hnone. split; [reflexivity |]. split; [| reflexivity].
  destruct w as [[wf uf cf] s]. cbn [files chats_file] in Hfile. subst cf.
  destruct wf, uf; reflexivity.
Qed.

Lemma X4_corrupt_chats_file_witness :
  fst (read_chats corrupt_chats_world) = []
  /\ chats_file (files (snd (read_chats corrupt_chats_world))) = Corrupt.
Proof.
  destruct (X4_corrupt_chats_file_reads_empty corrupt_chats_world
              (Some "u-alice") (draw "1" "Jan 7, 22:30")) as (H1 & H2 & _).
  - reflexivity.
  - split; assumption.
Defined.

(** ** The chat registry *)

Lemma update_first_split chat_id updates now : forall chats c,
  chat_with_id chat_id chats = Some c ->
  exists pre post,
    chats = (pre ++ c :: post)%list
    /\ Forall (fun x => c_id x <> chat_id) pre
    /\ update_first chat_id updates now chats
       = Some (with_updates updates now c,
               (pre ++ with_updates updates now c :: post)%list).
Proof.
  unfold chat_with_id.
  induction chats as [|x rest IH]; intros c Hfind; [discriminate |].
  cbn [List.find update_first] in *.
  destruct (bool_decide (c_id x = chat_id)) eqn:E.
  - injection Hfind as <-. exists [], rest.
    split; [reflexivity |]. split; [constructor |].
    unfold with_updates, retitled.
    destruct (updates !! "title"); reflexivity.
  - destruct (IH c Hfind) as (pre & post & -> & Hpre & ->).
    exists (x :: pre), post. split; [reflexivity |]. split; [| reflexivity].
    constructor; [| exact Hpre].
    apply bool_decide_eq_false in E. exact E.
Qed.

Lemma update_first_none chat_id updates now : forall chats,
  chat_with_id chat_id chats = None ->
  update_first chat_id updates now chats = None.
Proof.
  unfold chat_with_id.
  induction chats as [|x rest IH]; intros Hfind; [reflexivity |].
  cbn [List.find update_first] in *.
  destruct (bool_decide (c_id x = chat_id)); [discriminate |].
  rewrite (IH Hfind). reflexivity.
Qed.

(** X5: [update_chat] changes the first chat with the id and nothing
    else: that chat takes the new modification time (and the title, if the
    updates hold one), every chat before and after it is kept in place;
    for an unknown id it returns nothing and the chats stay as they were. *)
Theorem X5_update_chat_changes_one_chat (w : world) (chat_id : string)
        (updates : gmap string string) (now : string) :
  match chat_with_id chat_id (stored_chats w) with
  | Some c =>
      exists pre post,
        stored_chats w = (pre ++ c :: post)%list
        /\ Forall (fun x => c_id x <> chat_id) pre
        /\ fst (update_chat chat_id updates now w)
           = Some (with_updates updates now c)
        /\ stored_chats (snd (update_chat chat_id updates now w))
           = (pre ++ with_updates updates now c :: post)%list
  | None =>
      fst (update_chat chat_id updates now w) = None
      /\ stored_chats (snd (update_chat chat_id updates now w)) = stored_chats w
  end
  /\ session (snd (update_chat chat_id updates now w)) = session w.
Proof.
  unfold update_chat, bind. rewrite read_chats_eq. cbn [fst snd].
  destruct (chat_with_id chat_id (stored_chats w)) as [c|] eqn:Hfind.
  - destruct (update_first_split chat_id updates now _ _ Hfind)
      as (pre & post & Hsplit & Hpre & Hupd).
    rewrite Hupd, write_chats_eq. cbn [fst snd ret]. split.
    + exists pre, post. repeat split; assumption.
    + rewrite session_with_chats, ensured_idem. apply ensured_session.
  - rewrite (update_first_none chat_id updates now _ Hfind). cbn [fst snd ret].
    split; [split; [reflexivity | apply stored_chats_ensured] |].
    apply ensured_session.
Qed.

Lemma filter_out_twice chat_id (chats : list chat) :
  List.filter (fun c => negb (bool_decide (c_id c = chat_id)))
    (List.filter (fun c => negb (bool_decide (c_id c = chat_id))) chats)
  = List.filter (fun c => negb (bool_decide (c_id c = chat_id))) chats.
Proof.
  induction chats as [|x rest IH]; [reflexivity |].
  cbn [List.filter].
  destruct (negb (bool_decide (c_id x = chat_id))) eqn:E; [| exact IH].
  cbn [List.filter]. rewrite E, IH. reflexivity.
Qed.

Lemma filter_out_absent chat_id : forall chats,
  chat_with_id chat_id chats = None ->
  List.filter (fun c => negb (bool_decide (c_id c = chat_id))) chats = chats.
Proof.
  unfold chat_with_id.
  induction chats as [|x rest IH]; intros Hfind; [reflexivity |].
  cbn [List.find List.filter] in *.
  destruct (bool_decide (c_id x = chat_id)); [discriminate |].
  cbn [negb]. rewrite (IH Hfind). reflexivity.
Qed.

Lemma delete_chat_absent chat_id w :
  chat_with_id chat_id (stored_chats w) = None ->
  delete_chat chat_id w = (false, ensured w).
Proof.
  intros Hfind. unfold delete_chat, bind. rewrite read_chats_eq. cbn [fst snd].
  rewrite (filter_out_absent _ _ Hfind), Nat.ltb_irrefl. reflexivity.
Qed.

(** X6: [delete_chat] answers whether a chat had the id; afterwards no
    chat has it, the other chats are kept in their order, and deleting the
    same id again answers false and changes nothing. *)
Theorem X6_delete_chat_removes_the_id (w : world) (chat_id : string) :
  fst (delete_chat chat_id w)
  = match chat_with_id chat_id (stored_chats w) with
    | Some _ => true
    | None => false
    end
  /\ stored_chats (snd (delete_chat chat_id w))
     = List.filter (fun c => negb (bool_decide (c_id c = chat_id))) (stored_chats w)
  /\ chat_with_id chat_id (stored_chats (snd (delete_chat chat_id w))) = None
  /\ delete_chat chat_id (snd (delete_chat chat_id w))
     = (false, snd (delete_chat chat_id w))
  /\ session (snd (delete_chat chat_id w)) = session w.
Proof.
  destruct (chat_with_id chat_id (stored_chats w)) as [c|] eqn:Hfind.
  - rewrite (delete_chat_found _ _ _ Hfind). cbn [fst snd].
    rewrite stored_chats_with_chats.
    split; [reflexivity |]. split; [reflexivity |].
    split; [apply filter_out_gone |]. split.
    + rewrite delete_chat_absent
        by (rewrite stored_chats_with_chats; apply filter_out_gone).
      rewrite ensured_with_chats. reflexivity.
    + rewrite session_with_chats. apply ensured_session.
  - rewrite (delete_chat_absent _ _ Hfind). cbn [fst snd].
    rewrite stored_chats_ensured, (filter_out_absent _ _ Hfind).
    split; [reflexivity |]. split; [reflexivity |].
    split; [exact Hfind |]. split.
    + rewrite delete_chat_absent by (rewrite stored_chats_ensured; exact Hfind).
      rewrite ensured_idem. reflexivity.
    + apply ensured_session.
Qed.

Lemma update_chat_some chat_id updates now w c :
  chat_with_id chat_id (stored_chats w) = Some c ->
  exists w',
    update_chat chat_id updates now w = (Some (with_updates updates now c), w').
Proof.
  intros Hfind. unfold update_chat, bind. rewrite read_chats_eq. cbn [fst snd].
  destruct (update_first_split chat_id updates now _ _ Hfind)
    as (pre & post & _ & _ & ->).
  eexists. reflexivity.
Qed.

Ltac left_unchanged :=
  right; cbn [fst snd ret];
  split; [rewrite ?stored_chats_ensured | rewrite ?ensured_session]; reflexivity.

Ltac through_checks chat_id w :=
  unfold login_required, bind, get_session; cbn [fst snd];
  destruct (session w !! "username"); [| left_unchanged];
  destruct (truthy (session w !! "user_id")); cbn [negb]; [| left_unchanged];
  rewrite get_chat_by_id_eq; cbn [fst snd];
  fold (chat_with_id chat_id (stored_chats w));
  let c := fresh "c" in
  let Hfind := fresh "Hfind" in
  destruct (chat_with_id chat_id (stored_chats w)) as [c|] eqn:Hfind;
    [| left_unchanged];
  destruct (bool_decide (c_user_id c = session w !! "user_id")); cbn [negb];
    [| left_unchanged];
  rewrite <- (stored_chats_ensured w) in Hfind.

Lemma rename_success_or_unchanged chat_id data now w :
  success_or_unchanged w (rename_chat_endpoint chat_id data now w).
Proof.
  unfold success_or_unchanged, rename_chat_endpoint. through_checks chat_id w.
  destruct ((if falsy_body data then None else data) ≫= lookup "title") as [raw|];
    [| left_unchanged].
  destruct (bool_decide (strip raw = "")); [left_unchanged |].
  destruct (100 <? String.length (strip raw))%nat; [left_unchanged |].
  destruct (update_chat_some chat_id {["title" := strip raw]} now _ _ Hfind)
    as [w' ->].
  left. cbn. lia.
Qed.

Lemma update_success_or_unchanged chat_id data now w :
  success_or_unchanged w (update_chat_endpoint chat_id data now w).
Proof.
  unfold success_or_unchanged, update_chat_endpoint. through_checks chat_id w.
  destruct (bool_decide (_ = Some "switch")); [left; cbn; lia |].
  match goal with
  | |- context [update_chat chat_id ?u now (ensured w)] =>
      destruct (update_chat_some chat_id u now _ _ Hfind) as [w' ->]
  end.
  left. cbn. lia.
Qed.

Lemma delete_success_or_unchanged chat_id w :
  success_or_unchanged w (delete_chat_endpoint chat_id w).
Proof.
  unfold success_or_unchanged, delete_chat_endpoint. through_checks chat_id w.
  rewrite (delete_chat_found _ _ _ Hfind). left.
  cbn [fst snd]. destruct (bool_decide _); cbn; lia.
Qed.

Lemma create_success_or_unchanged data d w :
  success_or_unchanged w (create_chat data d w).
Proof.
  unfold success_or_unchanged, create_chat.
  unfold login_required, bind, get_session; cbn [fst snd].
  destruct (session w !! "username"); [| left_unchanged].
  destruct (truthy (session w !! "user_id")); cbn [negb]; [| left_unchanged].
  left. cbn. lia.
Qed.

(** X7: a request to create, update, rename or delete a chat that is not
    answered with a 2xx status (a redirect, 401, 403, 404, 400 or 500)
    leaves the stored chats and the session exactly as they were. *)
Theorem X7_refused_chat_requests_change_nothing json_loads
        (r : request) (w : world) :
  chat_mutation r = true ->
  300 <= status_of (fst (dispatch json_loads r w)) ->
  stored_chats (snd (dispatch json_loads r w)) = stored_chats w
  /\ session (snd (dispatch json_loads r w)) = session w.
Proof.
  intros Hmut Hstatus.
  assert (H : success_or_unchanged w (dispatch json_loads r w)).
  { destruct r; try discriminate Hmut; cbn [dispatch].
    - apply create_success_or_unchanged.
    - apply update_success_or_unchanged.
    - apply rename_success_or_unchanged.
    - apply delete_success_or_unchanged. }
  destruct H as [H | H]; [lia | exact H].
Qed.

Lemma X7_refused_chat_requests_witness :
  stored_chats
    (snd (dispatch no_json
            (PutApiChatRename "c-alice" (Some {["title" := "   "]})
               "2026-01-08T09:00:00")
            alice_world))
  = stored_chats alice_world
  /\ session
       (snd (dispatch no_json
               (PutApiChatRename "c-alice" (Some {["title" := "   "]})
                  "2026-01-08T09:00:00")
               alice_world))
     = session alice_world.
Proof.
  apply (X7_refused_chat_requests_change_nothing no_json
           (PutApiChatRename "c-alice" (Some {["title" := "   "]})
              "2026-01-08T09:00:00") alice_world).
  - reflexivity.
  - vm_compute. lia.
Defined.

(** ** The chat routes *)

Ltac pass_checks_of w chat_id Hname Huid Hne Hstored Hown :=
  enter_view Hname; rewrite Huid, (truthy_Some _ Hne); cbn [negb];
  rewrite get_chat_by_id_eq; cbn [fst snd];
  fold (chat_with_id chat_id (stored_chats w));
  rewrite Hstored, (bool_decide_eq_true_2 _ Hown); cbn [negb].

(** X8: a switch request of the owner binds the chat and its session id as
    the active ones and answers with the chat as stored; it does not touch
    the stored chats (no new modification time), whatever else the body
    holds. *)
Theorem X8_switch_rebinds_without_writing (w : world)
        (chat_id uid name : string) (c : chat)
        (data : gmap string string) (now : string) :
  session w !! "username" = Some name ->
  session w !! "user_id" = Some uid ->
  uid <> "" ->
  fst (get_chat_by_id chat_id w) = Some c ->
  c_user_id c = Some uid ->
  data !! "action" = Some "switch" ->
  fst (update_chat_endpoint chat_id (Some data) now w)
  = Json 200 [("message", JStr "Switched to chat successfully.");
              ("chat", JChat c)]
  /\ session (snd (update_chat_endpoint chat_id (Some data) now w))
     = <["session_id" := c_session_id c]> (<["chat_id" := chat_id]> (session w))
  /\ stored_chats (snd (update_chat_endpoint chat_id (Some data) now w))
     = stored_chats w.
Proof.
  intros Hname Huid Hne Hfound Hown Haction.
  pose proof (found_stored w chat_id c Hfound) as Hstored.
  unfold update_chat_endpoint.
  pass_checks_of w chat_id Hname Huid Hne Hstored Hown.
  rewrite (body_with_field _ _ _ Haction). cbn [default from_option id].
  rewrite (bool_decide_eq_true_2 _ Haction).
  unfold bind. rewrite !session_set_eq. cbn [fst snd ret].
  cbn [session with_session]. rewrite ensured_session.
  split; [reflexivity |]. split; [reflexivity |].
  unfold stored_chats. cbn [files with_session].
  apply stored_chats_ensured.
Qed.

Lemma X8_switch_witness :
  session
    (snd (update_chat_endpoint "c-alice"
            (Some {["action" := "switch"; "title" := "ignored"]})
            "2026-01-08T09:00:00" alice_world))
  = <["session_id" := "s-alice"]> (<["chat_id" := "c-alice"]> alice_session)
  /\ stored_chats
       (snd (update_chat_endpoint "c-alice"
               (Some {["action" := "switch"; "title" := "ignored"]})
               "2026-01-08T09:00:00" alice_world))
     = stored_chats alice_world.
Proof.
  destruct (X8_switch_rebinds_without_writing alice_world "c-alice" "u-alice"
              "Alice" chat_alice {["action" := "switch"; "title" := "ignored"]}
              "2026-01-08T09:00:00") as (_ & H1 & H2);
    try reflexivity; try discriminate.
  split; assumption.
Defined.

Lemma create_new_chat_titled user_id title d w :
  title <> "" ->
  create_new_chat user_id (Some title) d w =
  let new_chat :=
    {| c_id := new_id d; c_user_id := user_id;
       c_session_id := new_session_id d; c_title := title;
       c_created_at := now_created d; c_updated_at := now_updated d |} in
  (new_chat, with_chats (stored_chats w ++ [new_chat]) (ensured w)).
Proof.
  intros Hne. unfold create_new_chat, bind.
  rewrite read_chats_eq. cbn [fst snd]. rewrite (truthy_Some _ Hne).
  cbn [ret fst snd]. rewrite write_chats_eq, ensured_idem. reflexivity.
Qed.

(** X9: POST /api/chats with a non-empty title creates a chat with that
    title as sent, of any length, appends it to the stored chats, answers
    201 and makes the new chat the active one. *)
Theorem X9_create_chat_appends_and_activates (w : world)
        (uid name title : string) (data : gmap string string) (d : draws) :
  session w !! "username" = Some name ->
  session w !! "user_id" = Some uid ->
  uid <> "" ->
  data !! "title" = Some title ->
  title <> "" ->
  fst (create_chat (Some data) d w)
  = Json 201 [("message", JStr "Chat created successfully.");
              ("chat", JChat {| c_id := new_id d; c_user_id := Some uid;
                                c_session_id := new_session_id d;
                                c_title := title;
                                c_created_at := now_created d;
                                c_updated_at := now_updated d |})]
  /\ stored_chats (snd (create_chat (Some data) d w))
     = (stored_chats w
        ++ [{| c_id := new_id d; c_user_id := Some uid;
               c_session_id := new_session_id d; c_title := title;
               c_created_at := now_created d;
               c_updated_at := now_updated d |}])%list
  /\ session (snd (create_chat (Some data) d w))
     = <["session_id" := new_session_id d]>
         (<["chat_id" := new_id d]> (session w)).
Proof.
  intros Hname Huid Hne Htitle Htne.
  unfold create_chat. enter_view Hname.
  rewrite Huid, (truthy_Some _ Hne). cbn [negb].
  rewrite (body_with_field _ _ _ Htitle). cbn [default from_option id].
  rewrite Htitle, (create_new_chat_titled _ _ _ _ Htne).
  cbn zeta. cbn [fst snd c_id c_session_id].
  rewrite !session_set_eq. cbn [fst snd ret session with_session with_chats].
  rewrite ensured_session.
  split; [reflexivity |]. split; [| reflexivity].
  unfold stored_chats. cbn [files with_session chats_file]. reflexivity.
Qed.

Lemma X9_create_chat_witness :
  stored_chats
    (snd (create_chat (Some {["title" := nchars 101 "x"]})
            (draw "9" "Jan 9, 10:00") alice_world))
  = [chat_alice; chat_bob;
     {| c_id := "c-9"; c_user_id := Some "u-alice"; c_session_id := "s-9";
        c_title := nchars 101 "x";
        c_created_at := "2026-01-07T22:30:00";
        c_updated_at := "2026-01-07T22:30:00" |}].
Proof.
  apply (X9_create_chat_appends_and_activates alice_world "u-alice" "Alice"
           (nchars 101 "x") {["title" := nchars 101 "x"]}
           (draw "9" "Jan 9, 10:00"));
    try reflexivity; discriminate.
Defined.

(** X10: GET /api/chats lists exactly the chats of the requester: every
    chat in the answer has the requester's user id, every stored chat of
    the requester is in the answer, and [total] is their number; the
    stored chats and the session are not changed. *)
Theorem X10_get_chats_lists_own_chats_only (w : world) (uid name : string) :
  session w !! "username" = Some name ->
  session w !! "user_id" = Some uid ->
  uid <> "" ->
  exists listed,
    get_chats w
    = (Json 200 [("chats", JChats listed); ("total", JNum (length listed))],
       ensured w)
    /\ Forall (fun c => c_user_id c = Some uid) listed
    /\ Forall (fun c => c_user_id c = Some uid -> c ∈ listed) (stored_chats w).
Proof.
  intros Hname Huid Hne. exists (user_chats (Some uid) w).
  split; [| split].
  - unfold get_chats. enter_view Hname.
    rewrite Huid, (truthy_Some _ Hne). cbn [negb].
    rewrite get_user_chats_eq. reflexivity.
  - unfold user_chats. apply Forall_forall. intros c Hc.
    apply list_elem_of_In, List.filter_In in Hc as [_ Hc].
    apply bool_decide_eq_true in Hc. exact Hc.
  - unfold user_chats. apply Forall_forall. intros c Hc Hown.
    apply list_elem_of_In, List.filter_In. split.
    + apply list_elem_of_In, Hc.
    + apply bool_decide_eq_true_2, Hown.
Qed.

Lemma X10_get_chats_witness :
  exists listed,
    get_chats alice_world
    = (Json 200 [("chats", JChats listed); ("total", JNum (length listed))],
       ensured alice_world)
    /\ Forall (fun c => c_user_id c = Some "u-alice") listed.
Proof.
  destruct (X10_get_chats_lists_own_chats_only alice_world "u-alice" "Alice")
    as (listed & H1 & H2 & _); try reflexivity; try discriminate.
  exists listed. split; assumption.
Defined.

(** ** Login and logout *)

(** X11: a POST /login whose body has no username, or one shorter than two
    characters once trimmed, is answered 400; nothing is bound in the
    session and no file is read or written. *)
Theorem X11_login_rejects_short_names (w : world)
        (data : option (gmap string string))
        (uuid t_created t_login : string) (d : draws) :
  (forall raw, data ≫= (.!! "username") = Some raw ->
               String.length (strip raw) < 2) ->
  exists body,
    login POST data uuid t_created t_login d w = (Json 400 body, w).
Proof.
  intros Hshort. unfold login.
  destruct data as [fields|]; cbn [falsy_body mbind option_bind].
  - destruct (bool_decide (fields = ∅)) eqn:E; cbn [mbind option_bind].
    + eexists. reflexivity.
    + destruct (fields !! "username") as [raw|] eqn:Hraw.
      * specialize (Hshort raw Hraw). apply Nat.ltb_lt in Hshort.
        rewrite Hshort. eexists. reflexivity.
      * eexists. reflexivity.
  - eexists. reflexivity.
Qed.

Lemma X11_login_rejects_witness :
  exists body,
    login POST (Some {["username" := "  a  "]}) "u-new" "2026-02-01T08:00:00"
      "2026-02-01T08:00:01" (draw "9" "Feb 1, 08:00") anonymous_world
    = (Json 400 body, anonymous_world).
Proof.
  apply (X11_login_rejects_short_names anonymous_world
           (Some {["username" := "  a  "]})).
  intros raw Hraw. vm_compute in Hraw. injection Hraw as <-. vm_compute. lia.
Defined.

Lemma gated_anonymous json_loads r w :
  gated r = true ->
  session w !! "username" = None ->
  dispatch json_loads r w = (Redirect "/login", w).
Proof.
  intros Hg Hanon.
  destruct r; try discriminate Hg; cbn [dispatch];
    apply login_required_anonymous; exact Hanon.
Qed.

(** X13: logout removes the username from the session and nothing else:
    the user id and the active chat stay bound and no file changes; every
    gated route then answers with the redirect to /login. *)
Theorem X13_logout_drops_only_the_username json_loads (w : world)
        (r : request) :
  gated r = true ->
  logout w = (Redirect "/login",
              {| files := files w; session := delete "username" (session w) |})
  /\ session (snd (logout w)) !! "user_id" = session w !! "user_id"
  /\ session (snd (logout w)) !! "chat_id" = session w !! "chat_id"
  /\ session (snd (logout w)) !! "session_id" = session w !! "session_id"
  /\ dispatch json_loads r (snd (logout w)) = (Redirect "/login", snd (logout w)).
Proof.
  intros Hg.
  assert (E : logout w = (Redirect "/login",
              {| files := files w; session := delete "username" (session w) |}))
    by reflexivity.
  rewrite E. cbn [snd session].
  split; [reflexivity |].
  rewrite !lookup_delete_ne by discriminate.
  repeat split.
  apply gated_anonymous; [exact Hg |]. apply lookup_delete_eq.
Qed.

Lemma X13_logout_witness :
  dispatch no_json GetApiChats (snd (logout alice_world))
  = (Redirect "/login", snd (logout alice_world))
  /\ session (snd (logout alice_world)) !! "user_id" = Some "u-alice".
Proof.
  destruct (X13_logout_drops_only_the_username no_json alice_world GetApiChats)
    as (_ & H1 & _ & _ & H2).
  - reflexivity.
  - split; [exact H2 | rewrite H1; reflexivity].
Defined.

(** *** The order of modification times *)

Lemma string_compare_Lt_split : forall a b c : string,
  String.compare a c = Lt ->
  String.compare a b = Lt \/ String.compare b c = Lt.
Proof.
  induction a as [|x a IH]; intros [|y b] [|z c] H; cbn [String.compare] in *;
    try discriminate; auto.
  unfold Ascii.compare in *.
  destruct (N.compare_spec (N_of_ascii x) (N_of_ascii y)) as [Hxy|Hxy|Hxy];
    destruct (N.compare_spec (N_of_ascii y) (N_of_ascii z)) as [Hyz|Hyz|Hyz];
    destruct (N.compare_spec (N_of_ascii x) (N_of_ascii z)) as [Hxz|Hxz|Hxz];
    auto; try discriminate; try lia.
Qed.

Lemma ltb_false_trans (a b c : string) :
  String.ltb a b = false -> String.ltb b c = false -> String.ltb a c = false.
Proof.
  unfold String.ltb. intros Hab Hbc.
  destruct (String.compare a c) eqn:Hac; try reflexivity.
  destruct (string_compare_Lt_split a b c Hac) as [H | H];
    [rewrite H in Hab | rewrite H in Hbc]; discriminate.
Qed.

Lemma ltb_asym (a b : string) : String.ltb a b = true -> String.ltb b a = false.
Proof.
  unfold String.ltb. rewrite (String.compare_antisym a b).
  destruct (String.compare b a); cbn; congruence.
Qed.

Lemma ltb_irrefl (a : string) : String.ltb a a = false.
Proof.
  destruct (String.ltb a a) eqn:E; [| reflexivity].
  pose proof (ltb_asym _ _ E). congruence.
Qed.

Lemma insert_desc_perm c sorted : Permutation (insert_desc c sorted) (c :: sorted).
Proof.
  induction sorted as [|m rest IH]; cbn [insert_desc]; [reflexivity |].
  destruct (String.ltb (c_updated_at c) (c_updated_at m)); [| reflexivity].
  rewrite IH. apply perm_swap.
Qed.

Lemma sorted_desc_perm chats : Permutation (sorted_desc chats) chats.
Proof.
  induction chats as [|c rest IH]; cbn [sorted_desc]; [reflexivity |].
  rewrite insert_desc_perm, IH. reflexivity.
Qed.

Lemma insert_desc_sorted c sorted :
  StronglySorted not_older sorted -> StronglySorted not_older (insert_desc c sorted).
Proof.
  induction 1 as [|m rest Hrest IH Hall]; cbn [insert_desc].
  - repeat constructor.
  - destruct (String.ltb (c_updated_at c) (c_updated_at m)) eqn:E.
    + constructor; [exact IH |].
      rewrite Forall_forall. intros x Hx. rewrite insert_desc_perm in Hx.
      apply elem_of_cons in Hx as [-> | Hx].
      * apply ltb_asym, E.
      * rewrite Forall_forall in Hall. apply Hall, Hx.
    + constructor; [constructor; assumption |].
      constructor; [exact E |].
      rewrite Forall_forall in Hall |- *. intros x Hx.
      exact (ltb_false_trans _ _ _ E (Hall x Hx)).
Qed.

Lemma sorted_desc_sorted chats : StronglySorted not_older (sorted_desc chats).
Proof.
  induction chats as [|c rest IH]; cbn [sorted_desc].
  - constructor.
  - apply insert_desc_sorted, IH.
Qed.

(** The head of the sorted list is one of the chats and none is newer. *)
Lemma sorted_desc_head chats latest rest :
  sorted_desc chats = latest :: rest ->
  latest ∈ chats /\ Forall (not_older latest) chats.
Proof.
  intros E. pose proof (sorted_desc_perm chats) as Hperm.
  pose proof (sorted_desc_sorted chats) as Hsorted.
  rewrite E in Hperm, Hsorted. split.
  - rewrite <- Hperm. apply elem_of_cons. left. reflexivity.
  - rewrite <- Hperm. constructor.
    + apply ltb_irrefl.
    + apply StronglySorted_inv in Hsorted. apply Hsorted.
Qed.

Lemma sorted_desc_nil chats : sorted_desc chats = [] -> chats = [].
Proof.
  intros E. pose proof (sorted_desc_perm chats) as Hperm. rewrite E in Hperm.
  apply Permutation_nil in Hperm. exact Hperm.
Qed.

(** X12: a successful login leaves an active chat bound that is stored
    and belongs to the user who logged in, with the session id of that
    chat; no chat of that user in the store was modified later than it (a
    user without chats gets a new one). *)
Theorem X12_login_binds_latest_own_chat (w : world)
        (data : gmap string string)
        (raw uuid t_created t_login : string) (d : draws) :
  data !! "username" = Some raw ->
  2 <= String.length (strip raw) ->
  exists c,
    c ∈ stored_chats (snd (login POST (Some data) uuid t_created t_login d w))
    /\ session (snd (login POST (Some data) uuid t_created t_login d w)) !! "chat_id"
       = Some (c_id c)
    /\ session (snd (login POST (Some data) uuid t_created t_login d w))
         !! "session_id"
       = Some (c_session_id c)
    /\ c_user_id c
       = session (snd (login POST (Some data) uuid t_created t_login d w))
           !! "user_id"
    /\ Forall (fun x => c_user_id x = c_user_id c -> not_older c x)
         (stored_chats (snd (login POST (Some data) uuid t_created t_login d w))).
Proof.
  intros Hname Hlen.
  destruct (add_user_returns (strip raw) uuid t_created t_login w)
    as (rec & Hrec & _ & _).
  destruct (add_user (strip raw) uuid t_created t_login w) as [o w1] eqn:E.
  cbn [fst] in Hrec. subst o.
  rewrite (login_post_run data raw uuid t_created t_login d w rec w1 Hname Hlen E).
  cbn [snd].
  set (w2 := logged_in (strip raw) (u_id rec) w1).
  destruct (session_logged_in (strip raw) (u_id rec) w1) as [Hid _].
  fold w2 in Hid.
  assert (Hsess : session (ensured w2) = session w2) by apply ensured_session.
  destruct (sorted_desc (user_chats (Some (u_id rec)) w2))
    as [|latest rest] eqn:Esort.
  - apply sorted_desc_nil in Esort.
    rewrite (create_new_chat_auto _ None) by reflexivity.
    cbn zeta. cbn [fst snd]. rewrite ensured_idem.
    match goal with |- context [activated ?c ?x] =>
      destruct (session_activated c x) as (Hc & Hs & Hu & _);
      exists c
    end.
    rewrite Hc, Hs, Hu, session_with_chats, Hsess, Hid.
    assert (Hstored : forall c l x, stored_chats (activated c (with_chats l x)) = l)
      by reflexivity.
    rewrite Hstored. cbn [c_id c_session_id c_user_id].
    split; [| repeat split].
    + apply elem_of_app. right. apply list_elem_of_singleton. reflexivity.
    + apply Forall_app. split.
      * apply Forall_forall. intros x Hx Hown. exfalso.
        assert (Hin : x ∈ user_chats (Some (u_id rec)) w2).
        { unfold user_chats. apply list_elem_of_In, List.filter_In. split.
          - rewrite stored_chats_ensured in Hx. apply list_elem_of_In, Hx.
          - apply bool_decide_eq_true_2, Hown. }
        rewrite Esort in Hin. inversion Hin.
      * constructor; [| constructor]. intros _. apply ltb_irrefl.
  - destruct (sorted_desc_head _ _ _ Esort) as [Hin Hmax].
    assert (Hlatest : latest ∈ stored_chats w2 /\ c_user_id latest = Some (u_id rec)).
    { unfold user_chats in Hin.
      apply list_elem_of_In, List.filter_In in Hin as [Hin Hown].
      split; [apply list_elem_of_In, Hin | apply bool_decide_eq_true in Hown; exact Hown]. }
    destruct Hlatest as [Hstored Hown].
    destruct (session_activated latest (ensured w2)) as (Hc & Hs & Hu & _).
    exists latest. rewrite Hc, Hs, Hu, Hsess, Hid.
    assert (Hact : forall c x, stored_chats (activated c x) = stored_chats x)
      by reflexivity.
    rewrite Hact, stored_chats_ensured.
    split; [exact Hstored | repeat split; try assumption].
    apply Forall_forall. intros x Hx Hx_own.
    rewrite Forall_forall in Hmax. apply Hmax.
    unfold user_chats. apply list_elem_of_In, List.filter_In. split.
    + apply list_elem_of_In, Hx.
    + apply bool_decide_eq_true_2. rewrite Hx_own. exact Hown.
Qed.

Lemma X12_login_witness :
  exists c,
    c ∈ stored_chats
          (snd (login POST (Some {["username" := "alice"]}) "u-new"
                  "2026-02-01T08:00:00" "2026-02-01T08:00:01"
                  (draw "9" "Feb 1, 08:00") alice_world))
    /\ session
         (snd (login POST (Some {["username" := "alice"]}) "u-new"
                 "2026-02-01T08:00:00" "2026-02-01T08:00:01"
                 (draw "9" "Feb 1, 08:00") alice_world))
         !! "chat_id" = Some (c_id c).
Proof.
  destruct (X12_login_binds_latest_own_chat alice_world
              {["username" := "alice"]} "alice" "u-new"
              "2026-02-01T08:00:00" "2026-02-01T08:00:01"
              (draw "9" "Feb 1, 08:00")) as (c & H1 & H2 & _).
  - reflexivity.
  - vm_compute. lia.
  - exists c. split; assumption.
Defined.

(** ** The relay *)

Lemma update_chat_session chat_id updates now w :
  session (snd (update_chat chat_id updates now w)) = session w.
Proof.
  unfold update_chat, bind. rewrite read_chats_eq. cbn [fst snd].
  destruct (update_first _ _ _ _) as [[c' chats']|].
  - rewrite write_chats_eq. cbn [fst snd ret].
    rewrite session_with_chats, ensured_idem. apply ensured_session.
  - apply ensured_session.
Qed.

Lemma read_webhooks_frame uuid w :
  stored_chats (snd (read_webhooks uuid w)) = stored_chats w
  /\ session (snd (read_webhooks uuid w)) = session w
  /\ ensured (snd (read_webhooks uuid w)) = snd (read_webhooks uuid w).
Proof.
  destruct w as [[wf uf cf] s].
  destruct wf as [| |[[url|]|l]], uf, cf;
    unfold read_webhooks, bind; cbn -[truthy];
    try destruct (truthy (Some url)); repeat split.
Qed.

Lemma chat_with_id_split chat_id (c : chat) pre post :
  Forall (fun x => c_id x <> chat_id) pre ->
  c_id c = chat_id ->
  chat_with_id chat_id (pre ++ c :: post) = Some c.
Proof.
  intros Hpre Hid. unfold chat_with_id.
  induction Hpre as [|x pre Hx _ IH]; cbn [app List.find].
  - rewrite (bool_decide_eq_true_2 _ Hid). reflexivity.
  - rewrite (bool_decide_eq_false_2 _ Hx). exact IH.
Qed.

Lemma chat_with_id_has_id chat_id : forall chats c,
  chat_with_id chat_id chats = Some c -> c_id c = chat_id.
Proof.
  unfold chat_with_id. intros chats c H.
  apply List.find_some in H as [_ H]. apply bool_decide_eq_true in H. exact H.
Qed.

Lemma update_chat_lookup chat_id updates now w c :
  chat_with_id chat_id (stored_chats w) = Some c ->
  chat_with_id chat_id (stored_chats (snd (update_chat chat_id updates now w)))
  = Some (with_updates updates now c).
Proof.
  intros Hfind. unfold update_chat, bind. rewrite read_chats_eq. cbn [fst snd].
  destruct (update_first_split chat_id updates now _ _ Hfind)
    as (pre & post & _ & Hpre & Hupd).
  rewrite Hupd, write_chats_eq. cbn [fst snd ret].
  rewrite stored_chats_with_chats.
  apply chat_with_id_split; [exact Hpre |].
  cbn [with_updates retitled c_id]. apply (chat_with_id_has_id _ _ _ Hfind).
Qed.

Section Relay.

Variables (w : world) (data : gmap string string).
Variables (name message uuid_read now : string) (d : draws).
Variable requests_post : string -> payload -> upstream.
Hypothesis Hname : session w !! "username" = Some name.
Hypothesis Hmessage : data !! "message" = Some message.
Hypothesis Hdefault : nonempty (data !! "webhook_id") = None.

Lemma send_without_webhook :
  fst (read_webhooks uuid_read w) = [] ->
  send_message (Some data) uuid_read d now requests_post w
  = (Json 400 [("error",
       JStr "No webhook is configured. Please set one in the Webhook Management page.")],
     snd (read_webhooks uuid_read w)).
Proof.
  intros Hempty. unfold send_message. enter_view Hname.
  rewrite (body_with_field _ _ _ Hmessage). cbn [mbind option_bind].
  rewrite Hmessage, Hdefault. cbn [fst snd]. rewrite Hempty. reflexivity.
Qed.

Lemma send_with_active_chat first others sid cid :
  fst (read_webhooks uuid_read w) = first :: others ->
  session w !! "session_id" = Some sid ->
  session w !! "chat_id" = Some cid ->
  cid <> "" ->
  send_message (Some data) uuid_read d now requests_post w
  = (relay_response
       (requests_post (w_url first)
          {| user_message := message; payload_session_id := sid;
             payload_username := name |}),
     snd (update_chat cid ∅ now (snd (read_webhooks uuid_read w)))).
Proof.
  intros Hfirst Hsid Hcid Hne. unfold send_message. enter_view Hname.
  rewrite (body_with_field _ _ _ Hmessage). cbn [mbind option_bind].
  rewrite Hmessage, Hdefault. cbn [fst snd]. rewrite Hfirst. cbn [fst snd ret].
  destruct (read_webhooks_frame uuid_read w) as (_ & Hsess & _).
  rewrite Hsess, Hsid, Hcid. cbn [fst snd ret].
  rewrite Hsess, Hsid, Hcid, Hname. unfold nonempty.
  rewrite (truthy_Some _ Hne). cbn [fst snd default from_option id].
  destruct (requests_post _ _) as [| | |[reply|]]; reflexivity.
Qed.

End Relay.

Lemma update_first_identities chat_id updates now : forall chats c' chats',
  update_first chat_id updates now chats = Some (c', chats') ->
  List.map chat_identity chats' = List.map chat_identity chats.
Proof.
  induction chats as [|x rest IH]; intros c' chats' H; [discriminate |].
  cbn [update_first] in H.
  destruct (bool_decide (c_id x = chat_id)).
  - injection H as <- <-. reflexivity.
  - destruct (update_first chat_id updates now rest) as [[c'' rest']|] eqn:E;
      [| discriminate].
    injection H as <- <-. cbn [List.map]. rewrite (IH _ _ eq_refl). reflexivity.
Qed.

Lemma update_chat_identities chat_id updates now w :
  List.map chat_identity (stored_chats (snd (update_chat chat_id updates now w)))
  = List.map chat_identity (stored_chats w).
Proof.
  unfold update_chat, bind. rewrite read_chats_eq. cbn [fst snd].
  destruct (update_first chat_id updates now (stored_chats w))
    as [[c' chats']|] eqn:E.
  - rewrite write_chats_eq. cbn [fst snd ret]. rewrite stored_chats_with_chats.
    apply (update_first_identities _ _ _ _ _ _ E).
  - cbn [snd ret]. rewrite stored_chats_ensured. reflexivity.
Qed.

(** X14: a message sent while no webhook is configured is answered 400;
    no chat is created or touched and the session is not changed, even
    when no chat is active. *)
Theorem X14_send_without_webhook_changes_nothing (w : world)
        (data : gmap string string) (name message uuid_read now : string)
        (d : draws) (requests_post : string -> payload -> upstream) :
  session w !! "username" = Some name ->
  data !! "message" = Some message ->
  nonempty (data !! "webhook_id") = None ->
  fst (read_webhooks uuid_read w) = [] ->
  fst (send_message (Some data) uuid_read d now requests_post w)
  = Json 400 [("error",
      JStr "No webhook is configured. Please set one in the Webhook Management page.")]
  /\ stored_chats (snd (send_message (Some data) uuid_read d now requests_post w))
     = stored_chats w
  /\ session (snd (send_message (Some data) uuid_read d now requests_post w))
     = session w.
Proof.
  intros Hname Hmessage Hdefault Hempty.
  rewrite (send_without_webhook w data name message uuid_read now d requests_post
             Hname Hmessage Hdefault Hempty).
  destruct (read_webhooks_frame uuid_read w) as (Hchats & Hsess & _).
  cbn [fst snd]. repeat split; assumption.
Qed.

Lemma X14_send_without_webhook_witness :
  fst (send_message (Some {["message" := "hello"]}) "uuid-0"
         (draw "9" "Jan 9, 10:00") "2026-01-09T10:00:00"
         (fun _ _ => Timeout) alice_world)
  = Json 400 [("error",
      JStr "No webhook is configured. Please set one in the Webhook Management page.")].
Proof.
  apply (X14_send_without_webhook_changes_nothing alice_world
           {["message" := "hello"]} "Alice" "hello"); reflexivity.
Defined.

(** X15: with a webhook configured and a chat active, the message goes to
    the first webhook with the active session id and the username of the
    session, and the reply of the webhook is passed back with status 200. *)
Theorem X15_send_relays_reply (w : world)
        (data : gmap string string) (name message uuid_read now : string)
        (d : draws) (requests_post : string -> payload -> upstream)
        (first : webhook) (others : list webhook) (sid cid : string)
        (reply : pyval) :
  session w !! "username" = Some name ->
  data !! "message" = Some message ->
  nonempty (data !! "webhook_id") = None ->
  fst (read_webhooks uuid_read w) = first :: others ->
  session w !! "session_id" = Some sid ->
  session w !! "chat_id" = Some cid ->
  cid <> "" ->
  requests_post (w_url first)
    {| user_message := message; payload_session_id := sid;
       payload_username := name |} = Answer (Some reply) ->
  fst (send_message (Some data) uuid_read d now requests_post w)
  = Json 200 [("reply", JVal reply)]
  /\ session (snd (send_message (Some data) uuid_read d now requests_post w))
     = session w.
Proof.
  intros Hname Hmessage Hdefault Hfirst Hsid Hcid Hne Hreply.
  rewrite (send_with_active_chat w data name message uuid_read now d
             requests_post Hname Hmessage Hdefault first others sid cid
             Hfirst Hsid Hcid Hne).
  cbn [fst snd]. rewrite Hreply. split; [reflexivity |].
  unfold update_chat, bind. rewrite read_chats_eq. cbn [fst snd].
  destruct (read_webhooks_frame uuid_read w) as (_ & Hsess & _).
  destruct (update_first _ _ _ _) as [[c' chats']|].
  - rewrite write_chats_eq. cbn [fst snd ret].
    rewrite session_with_chats, !ensured_session. exact Hsess.
  - cbn [snd ret]. rewrite ensured_session. exact Hsess.
Qed.

Lemma X15_send_relays_witness :
  fst (send_message (Some {["message" := "hello"]}) "uuid-0"
         (draw "9" "Jan 9, 10:00") "2026-01-09T10:00:00"
         echo_endpoint relay_world)
  = Json 200 [("reply", JVal (PStr "hello"))].
Proof.
  apply (X15_send_relays_reply relay_world {["message" := "hello"]} "Alice"
           "hello" "uuid-0" "2026-01-09T10:00:00" (draw "9" "Jan 9, 10:00")
           echo_endpoint
           {| w_id := "w-1"; w_name := "n8n"; w_url := "http://n8n/hook" |} []
           "s-alice" "c-alice" (PStr "hello"));
    try reflexivity; discriminate.
Defined.

(** X16: the active chat gets its new modification time before the
    webhook is called: when the call times out the answer is 504 and the
    stored chat already carries the time of the request. *)
Theorem X16_send_touches_chat_before_relay (w : world)
        (data : gmap string string) (name message uuid_read now : string)
        (d : draws) (requests_post : string -> payload -> upstream)
        (first : webhook) (others : list webhook) (sid cid : string)
        (c : chat) :
  session w !! "username" = Some name ->
  data !! "message" = Some message ->
  nonempty (data !! "webhook_id") = None ->
  fst (read_webhooks uuid_read w) = first :: others ->
  session w !! "session_id" = Some sid ->
  session w !! "chat_id" = Some cid ->
  cid <> "" ->
  chat_with_id cid (stored_chats w) = Some c ->
  requests_post (w_url first)
    {| user_message := message; payload_session_id := sid;
       payload_username := name |} = Timeout ->
  fst (send_message (Some data) uuid_read d now requests_post w)
  = Json 504 [("error", JStr "The request to the webhook timed out.")]
  /\ chat_with_id cid
       (stored_chats
          (snd (send_message (Some data) uuid_read d now requests_post w)))
     = Some (retitled (c_title c) now c).
Proof.
  intros Hname Hmessage Hdefault Hfirst Hsid Hcid Hne Hfound Htimeout.
  rewrite (send_with_active_chat w data name message uuid_read now d
             requests_post Hname Hmessage Hdefault first others sid cid
             Hfirst Hsid Hcid Hne).
  cbn [fst snd]. rewrite Htimeout. split; [reflexivity |].
  destruct (read_webhooks_frame uuid_read w) as (Hchats & _ & _).
  rewrite (update_chat_lookup cid ∅ now _ c) by (rewrite Hchats; exact Hfound).
  reflexivity.
Qed.

Lemma X16_send_touches_witness :
  chat_with_id "c-alice"
    (stored_chats
       (snd (send_message (Some {["message" := "hello"]}) "uuid-0"
               (draw "9" "Jan 9, 10:00") "2026-01-09T10:00:00"
               (fun _ _ => Timeout) relay_world)))
  = Some (retitled "Chat-1 (Jan 7, 22:30)" "2026-01-09T10:00:00" chat_alice).
Proof.
  apply (X16_send_touches_chat_before_relay relay_world {["message" := "hello"]}
           "Alice" "hello" "uuid-0" "2026-01-09T10:00:00" (draw "9" "Jan 9, 10:00")
           (fun _ _ => Timeout)
           {| w_id := "w-1"; w_name := "n8n"; w_url := "http://n8n/hook" |} []
           "s-alice" "c-alice" chat_alice);
    try reflexivity; discriminate.
Defined.

(** X17: a message sent while no chat is active (for instance after the
    active chat was deleted) first creates a chat for the user of the
    session, binds it as the active chat, and relays the message under the
    session id of the new chat; the chats already stored keep their ids,
    owners and session ids. *)
Theorem X17_send_without_active_chat_creates_one (w : world)
        (data : gmap string string) (name message uuid_read now : string)
        (d : draws) (requests_post : string -> payload -> upstream)
        (first : webhook) (others : list webhook) (reply : pyval) :
  session w !! "username" = Some name ->
  data !! "message" = Some message ->
  nonempty (data !! "webhook_id") = None ->
  fst (read_webhooks uuid_read w) = first :: others ->
  session w !! "session_id" = None ->
  new_id d <> "" ->
  requests_post (w_url first)
    {| user_message := message; payload_session_id := new_session_id d;
       payload_username := name |} = Answer (Some reply) ->
  fst (send_message (Some data) uuid_read d now requests_post w)
  = Json 200 [("reply", JVal reply)]
  /\ session (snd (send_message (Some data) uuid_read d now requests_post w))
     = <["session_id" := new_session_id d]>
         (<["chat_id" := new_id d]> (session w))
  /\ List.map chat_identity
       (stored_chats (snd (send_message (Some data) uuid_read d now requests_post w)))
     = (List.map chat_identity (stored_chats w)
        ++ [(new_id d, session w !! "user_id", new_session_id d, now_created d)])%list.
Proof.
  intros Hname Hmessage Hdefault Hfirst Hsid Hne Hreply.
  destruct (read_webhooks_frame uuid_read w) as (Hchats & Hsess & Hens).
  unfold send_message. enter_view Hname.
  rewrite (body_with_field _ _ _ Hmessage). cbn [mbind option_bind].
  rewrite Hmessage, Hdefault. cbn [fst snd]. rewrite Hfirst. cbn [fst snd ret].
  rewrite Hsess, Hsid. cbn [fst snd].
  rewrite (create_new_chat_auto _ None) by reflexivity.
  cbn zeta. cbn [fst snd c_id c_session_id].
  rewrite !session_set_eq. cbn [fst snd session with_session with_chats].
  rewrite Hens, Hsess.
  set (s' := <["session_id" := new_session_id d]>
               (<["chat_id" := new_id d]> (session w))).
  assert (H1 : s' !! "session_id" = Some (new_session_id d))
    by apply lookup_insert_eq.
  assert (H2 : s' !! "chat_id" = Some (new_id d))
    by (unfold s'; rewrite lookup_insert_ne by discriminate;
        apply lookup_insert_eq).
  assert (H3 : s' !! "username" = Some name)
    by (unfold s'; rewrite !lookup_insert_ne by discriminate; exact Hname).
  rewrite H1, H2, H3. unfold nonempty. rewrite (truthy_Some _ Hne).
  cbn [fst snd default from_option id]. rewrite Hreply. cbn [fst snd ret].
  split; [reflexivity |]. split.
  - rewrite update_chat_session. reflexivity.
  - rewrite update_chat_identities. unfold stored_chats at 1, with_session.
    cbn [files with_chats chats_file].
    rewrite Hchats, List.map_app. reflexivity.
Qed.

Lemma X17_send_after_delete_witness :
  session
    (snd (send_message (Some {["message" := "hello"]}) "uuid-0"
            (draw "9" "Jan 9, 10:00") "2026-01-09T10:00:00" echo_endpoint
            (snd (delete_chat_endpoint "c-alice" relay_world))))
  = <["session_id" := "s-9"]>
      (<["chat_id" := "c-9"]>
         (session (snd (delete_chat_endpoint "c-alice" relay_world)))).
Proof.
  apply (X17_send_without_active_chat_creates_one
           (snd (delete_chat_endpoint "c-alice" relay_world))
           {["message" := "hello"]} "Alice" "hello" "uuid-0" "2026-01-09T10:00:00"
           (draw "9" "Jan 9, 10:00") echo_endpoint
           {| w_id := "w-1"; w_name := "n8n"; w_url := "http://n8n/hook" |} []
           (PStr "hello"));
    try reflexivity; discriminate.
Defined.

(** ** The webhook routes *)

Lemma read_webhooks_written uuid webhooks w :
  read_webhooks uuid (with_webhooks webhooks w)
  = (webhooks, ensured (with_webhooks webhooks w)).
Proof. apply read_webhooks_modern. reflexivity. Qed.

Lemma stored_webhooks_ensured w :
  stored_webhooks (ensured w) = stored_webhooks w.
Proof. destruct w as [[wf uf cf] s]. destruct wf, uf, cf; reflexivity. Qed.

Lemma get_webhook_by_id_modern uuid webhook_id w webhooks :
  webhook_file (files w) = Doc (Webhooks webhooks) ->
  fst (get_webhook_by_id uuid webhook_id w) = webhook_with_id webhook_id webhooks.
Proof.
  intros Hfile. unfold get_webhook_by_id, bind.
  rewrite (read_webhooks_modern _ _ _ Hfile). reflexivity.
Qed.

Lemma update_found_split webhook_id data : forall webhooks x,
  webhook_with_id webhook_id webhooks = Some x ->
  exists pre post,
    webhooks = (pre ++ x :: post)%list
    /\ Forall (fun y => w_id y <> webhook_id) pre
    /\ update_found webhook_id data webhooks
       = Some (patched data x, (pre ++ patched data x :: post)%list).
Proof.
  unfold webhook_with_id.
  induction webhooks as [|y rest IH]; intros x Hfind; [discriminate |].
  cbn [List.find update_found] in *.
  destruct (bool_decide (w_id y = webhook_id)) eqn:E.
  - injection Hfind as <-. exists [], rest.
    split; [reflexivity |]. split; [constructor |].
    unfold patched. destruct (data !! "name"), (data !! "url"); reflexivity.
  - destruct (IH x Hfind) as (pre & post & -> & Hpre & ->).
    exists (y :: pre), post. split; [reflexivity |]. split; [| reflexivity].
    constructor; [| exact Hpre]. apply bool_decide_eq_false in E. exact E.
Qed.

Lemma update_found_none webhook_id data : forall webhooks,
  webhook_with_id webhook_id webhooks = None ->
  update_found webhook_id data webhooks = None.
Proof.
  unfold webhook_with_id.
  induction webhooks as [|y rest IH]; intros Hfind; [reflexivity |].
  cbn [List.find update_found] in *.
  destruct (bool_decide (w_id y = webhook_id)); [discriminate |].
  rewrite (IH Hfind). reflexivity.
Qed.

Lemma webhook_with_id_appended webhook_id (new_webhook : webhook) :
  forall webhooks,
  webhook_with_id webhook_id webhooks = None ->
  w_id new_webhook = webhook_id ->
  webhook_with_id webhook_id (webhooks ++ [new_webhook]) = Some new_webhook.
Proof.
  unfold webhook_with_id.
  induction webhooks as [|y rest IH]; cbn [app List.find]; intros Hfresh Hid.
  - rewrite (bool_decide_eq_true_2 _ Hid). reflexivity.
  - destruct (bool_decide (w_id y = webhook_id)); [discriminate |].
    apply IH; assumption.
Qed.

(** X18: POST /api/webhooks without a name or without a URL, and PUT
    /api/webhooks/{id} with neither, are answered 400 before anything is
    read: the world stays exactly as it was. *)
Theorem X18_webhook_requests_need_their_fields (w : world)
        (data : option (gmap string string))
        (webhook_id uuid_read uuid_new : string) :
  (data ≫= (.!! "name") = None \/ data ≫= (.!! "url") = None ->
   create_webhook data uuid_read uuid_new w = (missing_name_or_url, w))
  /\ (data ≫= (.!! "name") = None -> data ≫= (.!! "url") = None ->
      update_webhook webhook_id data uuid_read w = (missing_name_or_url, w)).
Proof.
  unfold create_webhook, update_webhook.
  destruct data as [fields|]; cbn [falsy_body mbind option_bind].
  - destruct (bool_decide (fields = ∅)); [split; intros; reflexivity |].
    split.
    + intros [H | H]; rewrite H; [reflexivity |].
      destruct (fields !! "name"); reflexivity.
    + intros -> ->. reflexivity.
  - split; intros; reflexivity.
Qed.

Lemma X18_webhook_fields_witness :
  create_webhook (Some {["name" := "n8n"]}) "uuid-0" "uuid-1" relay_world
    = (missing_name_or_url, relay_world)
  /\ update_webhook "w-1" (Some {["label" := "x"]}) "uuid-0" relay_world
     = (missing_name_or_url, relay_world).
Proof.
  destruct (X18_webhook_requests_need_their_fields relay_world
              (Some {["name" := "n8n"]}) "w-1" "uuid-0" "uuid-1") as [H1 _].
  destruct (X18_webhook_requests_need_their_fields relay_world
              (Some {["label" := "x"]}) "w-1" "uuid-0" "uuid-1") as [_ H2].
  split; [apply H1; right; reflexivity | apply H2; reflexivity].
Defined.

(** X19: POST /api/webhooks with a name and a URL answers 201 and appends
    one webhook with the new id to the registry, leaving the others as
    they were; if no webhook had that id, looking the id up finds the new
    webhook. *)
Theorem X19_create_webhook_appends (w : world) (fields : gmap string string)
        (webhooks : list webhook) (name url uuid_read uuid_new uuid' : string) :
  webhook_file (files w) = Doc (Webhooks webhooks) ->
  fields !! "name" = Some name ->
  fields !! "url" = Some url ->
  webhook_with_id uuid_new webhooks = None ->
  fst (create_webhook (Some fields) uuid_read uuid_new w)
  = Json 201 [("message", JStr "Webhook created successfully.");
              ("webhook",
               JVal (webhook_json {| w_id := uuid_new; w_name := name;
                                     w_url := url |}))]
  /\ stored_webhooks (snd (create_webhook (Some fields) uuid_read uuid_new w))
     = (webhooks ++ [{| w_id := uuid_new; w_name := name; w_url := url |}])%list
  /\ fst (get_webhook_by_id uuid' uuid_new
            (snd (create_webhook (Some fields) uuid_read uuid_new w)))
     = Some {| w_id := uuid_new; w_name := name; w_url := url |}.
Proof.
  intros Hfile Hn Hu Hfresh. unfold create_webhook.
  rewrite (body_with_field _ _ _ Hn), Hn, Hu. unfold bind.
  rewrite (read_webhooks_modern _ _ _ Hfile). cbn [fst snd].
  rewrite write_webhooks_eq. cbn [fst snd ret].
  split; [reflexivity |]. split; [reflexivity |].
  erewrite get_webhook_by_id_modern by reflexivity.
  apply webhook_with_id_appended; [exact Hfresh | reflexivity].
Qed.

Lemma X19_create_webhook_witness :
  stored_webhooks
    (snd (create_webhook (Some {["name" := "backup"; "url" := "http://b/hook"]})
            "uuid-0" "w-2" relay_world))
  = [{| w_id := "w-1"; w_name := "n8n"; w_url := "http://n8n/hook" |};
     {| w_id := "w-2"; w_name := "backup"; w_url := "http://b/hook" |}].
Proof.
  apply (X19_create_webhook_appends relay_world
           {["name" := "backup"; "url" := "http://b/hook"]}
           [{| w_id := "w-1"; w_name := "n8n"; w_url := "http://n8n/hook" |}]
           "backup" "http://b/hook" "uuid-0" "w-2" "uuid-9");
    reflexivity.
Defined.

(** X20: PUT /api/webhooks/{id} changes the first webhook with the id and
    nothing else: the fields present in the body replace the stored ones,
    a field that is absent keeps its value, the id stays, and every other
    webhook keeps its place; for an id that no webhook has the answer is
    404 and the registry is not written. *)
Theorem X20_update_webhook_is_partial (w : world) (fields : gmap string string)
        (webhooks : list webhook) (webhook_id uuid_read : string) :
  webhook_file (files w) = Doc (Webhooks webhooks) ->
  is_Some (fields !! "name") \/ is_Some (fields !! "url") ->
  match webhook_with_id webhook_id webhooks with
  | Some x =>
      exists pre post,
        webhooks = (pre ++ x :: post)%list
        /\ Forall (fun y => w_id y <> webhook_id) pre
        /\ fst (update_webhook webhook_id (Some fields) uuid_read w)
           = Json 200 [("message", JStr "Webhook updated successfully.");
                       ("webhook", JVal (webhook_json (patched fields x)))]
        /\ stored_webhooks (snd (update_webhook webhook_id (Some fields) uuid_read w))
           = (pre ++ patched fields x :: post)%list
  | None =>
      update_webhook webhook_id (Some fields) uuid_read w
      = (Json 404 [("error", JStr "Webhook not found.")], ensured w)
  end.
Proof.
  intros Hfile Hsome.
  assert (Hbody : falsy_body (Some fields) = false).
  { destruct Hsome as [[v Hv] | [v Hv]]; exact (body_with_field _ _ _ Hv). }
  assert (Hrun :
    update_webhook webhook_id (Some fields) uuid_read w
    = match update_found webhook_id fields webhooks with
      | Some (webhook, webhooks') =>
          (Json 200 [("message", JStr "Webhook updated successfully.");
                     ("webhook", JVal (webhook_json webhook))],
           with_webhooks webhooks' (ensured w))
      | None => (Json 404 [("error", JStr "Webhook not found.")], ensured w)
      end).
  { unfold update_webhook. rewrite Hbody.
    assert (Hafter :
      (webhooks0 <- read_webhooks uuid_read ;;
       match update_found webhook_id fields webhooks0 with
       | Some (webhook, webhooks1) =>
           write_webhooks webhooks1 ;;
           ret (Json 200 [("message", JStr "Webhook updated successfully.");
                          ("webhook", JVal (webhook_json webhook))])
       | None => ret (Json 404 [("error", JStr "Webhook not found.")])
       end) w
      = match update_found webhook_id fields webhooks with
        | Some (webhook, webhooks') =>
            (Json 200 [("message", JStr "Webhook updated successfully.");
                       ("webhook", JVal (webhook_json webhook))],
             with_webhooks webhooks' (ensured w))
        | None => (Json 404 [("error", JStr "Webhook not found.")], ensured w)
        end).
    { unfold bind. rewrite (read_webhooks_modern _ _ _ Hfile). cbn [fst snd].
      destruct (update_found webhook_id fields webhooks) as [[x' l']|];
        [| reflexivity].
      rewrite write_webhooks_eq, ensured_idem. reflexivity. }
    destruct Hsome as [[v Hv] | [v Hv]]; rewrite Hv;
      [| destruct (fields !! "name")]; exact Hafter. }
  rewrite Hrun.
  destruct (webhook_with_id webhook_id webhooks) as [x|] eqn:Hfind.
  - destruct (update_found_split webhook_id fields _ _ Hfind)
      as (pre & post & Hsplit & Hpre & ->).
    exists pre, post. repeat split; assumption.
  - rewrite (update_found_none _ fields _ Hfind). reflexivity.
Qed.

Lemma X20_update_webhook_witness :
  exists pre post,
    [{| w_id := "w-1"; w_name := "n8n"; w_url := "http://n8n/hook" |}]
    = (pre ++ {| w_id := "w-1"; w_name := "n8n"; w_url := "http://n8n/hook" |}
           :: post)%list
    /\ stored_webhooks
         (snd (update_webhook "w-1" (Some {["url" := "http://new/hook"]})
                 "uuid-0" relay_world))
       = (pre ++ {| w_id := "w-1"; w_name := "n8n"; w_url := "http://new/hook" |}
              :: post)%list.
Proof.
  assert (Hfield : is_Some (({["url" := "http://new/hook"]} : gmap string string)
                              !! "name")
                   \/ is_Some (({["url" := "http://new/hook"]} : gmap string string)
                                 !! "url"))
    by (right; exists "http://new/hook"; reflexivity).
  pose proof (X20_update_webhook_is_partial relay_world
                {["url" := "http://new/hook"]}
                [{| w_id := "w-1"; w_name := "n8n"; w_url := "http://n8n/hook" |}]
                "w-1" "uuid-0" eq_refl Hfield) as H.
  cbn [webhook_with_id List.find w_id] in H.
  destruct H as (pre & post & H1 & _ & _ & H2).
  exists pre, post. split; [exact H1 | exact H2].
Defined.

Lemma filter_out_webhook_absent webhook_id : forall webhooks,
  webhook_with_id webhook_id webhooks = None ->
  List.filter (fun w => negb (bool_decide (w_id w = webhook_id))) webhooks
  = webhooks.
Proof.
  unfold webhook_with_id.
  induction webhooks as [|y rest IH]; intros Hfind; [reflexivity |].
  cbn [List.find List.filter] in *.
  destruct (bool_decide (w_id y = webhook_id)); [discriminate |].
  cbn [negb]. rewrite (IH Hfind). reflexivity.
Qed.

Lemma filter_out_webhook_shorter webhook_id : forall webhooks x,
  webhook_with_id webhook_id webhooks = Some x ->
  length (List.filter (fun w => negb (bool_decide (w_id w = webhook_id))) webhooks)
  < length webhooks.
Proof.
  unfold webhook_with_id.
  induction webhooks as [|y rest IH]; intros x Hfind; [discriminate |].
  cbn [List.find List.filter length] in *.
  destruct (bool_decide (w_id y = webhook_id)); cbn [negb length].
  - pose proof (List.filter_length_le
                  (fun w => negb (bool_decide (w_id w = webhook_id))) rest). lia.
  - specialize (IH x Hfind). lia.
Qed.

Lemma filter_out_webhook_gone webhook_id webhooks :
  webhook_with_id webhook_id
    (List.filter (fun w => negb (bool_decide (w_id w = webhook_id))) webhooks)
  = None.
Proof.
  unfold webhook_with_id.
  induction webhooks as [|y rest IH]; [reflexivity |].
  cbn [List.filter]. destruct (bool_decide (w_id y = webhook_id)) eqn:E; cbn [negb].
  - exact IH.
  - cbn [List.find]. rewrite E. exact IH.
Qed.

(** X21: DELETE /api/webhooks/{id} removes every webhook with the id and
    keeps the others in their order; afterwards the id resolves to no
    webhook; for an id that no webhook has the answer is 404 and the
    registry stays as it was. *)
Theorem X21_delete_webhook_removes_the_id (w : world)
        (webhooks : list webhook) (webhook_id uuid_read uuid' : string) :
  webhook_file (files w) = Doc (Webhooks webhooks) ->
  status_of (fst (delete_webhook webhook_id uuid_read w))
  = match webhook_with_id webhook_id webhooks with
    | Some _ => 200
    | None => 404
    end
  /\ stored_webhooks (snd (delete_webhook webhook_id uuid_read w))
     = List.filter (fun x => negb (bool_decide (w_id x = webhook_id))) webhooks
  /\ fst (get_webhook_by_id uuid' webhook_id
            (snd (delete_webhook webhook_id uuid_read w))) = None.
Proof.
  intros Hfile. unfold delete_webhook, bind.
  rewrite (read_webhooks_modern _ _ _ Hfile). cbn [fst snd].
  assert (Hkept : webhook_file (files (ensured w)) = Doc (Webhooks webhooks)).
  { destruct w as [[wf uf cf] s]. cbn [files webhook_file] in Hfile. subst wf.
    destruct uf, cf; reflexivity. }
  destruct (webhook_with_id webhook_id webhooks) as [x|] eqn:Hfind.
  - pose proof (filter_out_webhook_shorter _ _ _ Hfind) as Hlt.
    assert (Hneq : (length (List.filter
                              (fun x => negb (bool_decide (w_id x = webhook_id)))
                              webhooks) =? length webhooks)%nat = false)
      by (apply Nat.eqb_neq; lia).
    rewrite Hneq, write_webhooks_eq. cbn [fst snd ret status_of].
    split; [reflexivity |]. split; [reflexivity |].
    erewrite get_webhook_by_id_modern by reflexivity.
    apply filter_out_webhook_gone.
  - rewrite (filter_out_webhook_absent _ _ Hfind), Nat.eqb_refl.
    cbn [fst snd ret status_of]. split; [reflexivity |]. split.
    + unfold stored_webhooks. rewrite Hkept. reflexivity.
    + rewrite (get_webhook_by_id_modern _ _ _ _ Hkept). exact Hfind.
Qed.

Lemma X21_delete_webhook_witness :
  status_of (fst (delete_webhook "w-1" "uuid-0" relay_world)) = 200
  /\ stored_webhooks (snd (delete_webhook "w-1" "uuid-0" relay_world)) = [].
Proof.
  destruct (X21_delete_webhook_removes_the_id relay_world
              [{| w_id := "w-1"; w_name := "n8n"; w_url := "http://n8n/hook" |}]
              "w-1" "uuid-0" "uuid-9" eq_refl) as (H1 & H2 & _).
  split; [exact H1 | exact H2].
Defined.

(** X22: the legacy endpoints round-trip on every state of webhooks.json:
    after a legacy POST with a URL, the legacy GET answers 200 with that
    URL; after the legacy DELETE the registry is empty and the legacy GET
    answers 404 with a null URL. *)
Theorem X22_legacy_webhook_round_trip (w : world) (data : gmap string string)
        (url uuid_read uuid_new uuid' : string) :
  data !! "webhook_url" = Some url ->
  fst (get_webhook uuid'
         (snd (update_webhook_legacy (Some data) uuid_read uuid_new w)))
  = Json 200 [("webhook_url", JStr url)]
  /\ stored_webhooks (snd (delete_webhook_legacy w)) = []
  /\ fst (get_webhook uuid' (snd (delete_webhook_legacy w)))
     = Json 404 [("webhook_url", JNull)].
Proof.
  intros Hurl. split; [| split].
  - rewrite (update_webhook_legacy_eq data url uuid_read uuid_new w Hurl).
    cbn [snd]. unfold get_webhook, bind. rewrite read_webhooks_written.
    cbn [fst snd].
    destruct (fst (read_webhooks uuid_read w)) as [|first rest]; reflexivity.
  - unfold delete_webhook_legacy, bind. rewrite write_webhooks_eq. reflexivity.
  - unfold delete_webhook_legacy, bind. rewrite write_webhooks_eq.
    cbn [fst snd ret]. unfold get_webhook, bind.
    rewrite read_webhooks_written. reflexivity.
Qed.

Lemma X22_legacy_round_trip_witness :
  fst (get_webhook "uuid-9"
         (snd (update_webhook_legacy (Some {["webhook_url" := "http://x"]})
                 "uuid-0" "uuid-1" legacy_world)))
  = Json 200 [("webhook_url", JStr "http://x")].
Proof.
  apply (X22_legacy_webhook_round_trip legacy_world
           {["webhook_url" := "http://x"]} "http://x" "uuid-0" "uuid-1" "uuid-9").
  reflexivity.
Defined.

(** ** History *)

(** X23: a history request that names a chat of the requester reads the
    messages stored under the session id of that chat, whatever chat is
    active in the session, and answers 200 with the id of the chat, that
    session id and the normalised messages; the session is not changed. *)
Theorem X23_history_of_named_chat json_loads (w : world)
        (chat_id uid name : string) (c : chat) (d : Database.db) :
  session w !! "username" = Some name ->
  session w !! "user_id" = Some uid ->
  chat_id <> "" ->
  fst (get_chat_by_id chat_id w) = Some c ->
  c_user_id c = Some uid ->
  exists fetched,
    Database.get_chat_history json_loads d (c_session_id c) = Returns fetched
    /\ fst (get_chat_history_api json_loads (Some chat_id) d w)
       = Json 200 [("chat_id", JStr chat_id);
                   ("session_id", JStr (c_session_id c));
                   ("history", JEntries (normalise_spec fetched));
                   ("total_messages", JNum (length (normalise_spec fetched)))]
    /\ session (snd (get_chat_history_api json_loads (Some chat_id) d w))
       = session w.
Proof.
  intros Hname Huid Hne Hfound Hown.
  eexists. split; [apply get_chat_history_returns |].
  unfold get_chat_history_api. enter_view Hname.
  unfold nonempty. rewrite (truthy_Some _ Hne).
  rewrite get_chat_by_id_eq in Hfound |- *. cbn [fst snd] in Hfound |- *.
  rewrite Hfound, Huid, (bool_decide_eq_true_2 _ Hown). cbn [negb fst snd ret].
  split; [| apply ensured_session].
  unfold load_history. rewrite get_chat_history_returns.
  cbn [and_then try_except]. rewrite format_history_spec. reflexivity.
Qed.

Lemma X23_history_of_named_chat_witness :
  exists fetched,
    fst (get_chat_history_api toy_loads (Some "c-alice")
           (Database.Table history_table)
           (with_session (<["session_id" := "s-other"]> alice_session) alice_world))
    = Json 200 [("chat_id", JStr "c-alice"); ("session_id", JStr "s-alice");
                ("history", JEntries (normalise_spec fetched));
                ("total_messages", JNum (length (normalise_spec fetched)))].
Proof.
  destruct (X23_history_of_named_chat toy_loads
              (with_session (<["session_id" := "s-other"]> alice_session) alice_world)
              "c-alice" "u-alice" "Alice" chat_alice
              (Database.Table history_table))
    as (fetched & _ & H & _); try reflexivity; try discriminate.
  exists fetched. exact H.
Defined.

Lemma parse_message_session json_loads r :
  Database.row_session_id (Database.parse_message json_loads r)
  = Database.row_session_id r.
Proof.
  unfold Database.parse_message. destruct (Database.row_message r); try reflexivity.
  destruct (json_loads s); reflexivity.
Qed.

(** X24: from a reachable store [get_chat_history] returns the records of
    the requested session and no others: every returned record carries
    that session id, the ids are those of the stored records of the
    session, each once, and they come in ascending order. *)
Theorem X24_get_chat_history_selects_the_session json_loads
        (rows : list Database.row) (session_id : string) :
  exists fetched,
    Database.get_chat_history json_loads (Database.Table rows) session_id
    = Returns fetched
    /\ Forall (fun r => Database.row_session_id r = session_id) fetched
    /\ Permutation (List.map Database.row_id fetched)
         (List.map Database.row_id
            (List.filter
               (fun r => bool_decide (Database.row_session_id r = session_id))
               rows))
    /\ ascending fetched.
Proof.
  eexists. split; [apply get_chat_history_returns |].
  cbn match. split; [| split].
  - apply Forall_forall. intros r Hr.
    apply list_elem_of_In, in_map_iff in Hr as (r0 & <- & Hr0).
    rewrite parse_message_session.
    apply list_elem_of_In in Hr0. rewrite order_by_id_perm in Hr0.
    apply list_elem_of_In, List.filter_In in Hr0 as [_ Hr0].
    apply bool_decide_eq_true in Hr0. exact Hr0.
  - rewrite List.map_map.
    rewrite (List.map_ext _ Database.row_id (parse_message_id json_loads)).
    apply Permutation_map, order_by_id_perm.
  - apply map_parse_ascending, order_by_id_ascending.
Qed.
